(** * safexl.toolkit: a shallow embedding and its checked properties

    The toolkit drives a spreadsheet host through COM automation and the
    process table through psutil.  Both are external collaborators; they are
    modelled here as an explicit [World] that is threaded through a small
    state-and-exception monad, so that every toolkit function reads like its
    Python source. *)

From Stdlib Require Import ZArith String Ascii List Lia Bool.
From stdpp Require Import base strings list gmap.

Local Open Scope string_scope.
Local Open Scope list_scope.

(* ===================================================================== *)
(** * Part I.  Definitions                                                *)
(* ===================================================================== *)

(** ** Python values that the toolkit passes around *)

(** line 6 *)
Definition EXCEL_PROCESS_NAME : string := "EXCEL.EXE".

(** The exceptions that can travel through the toolkit.  [ExcelError] is the
    class of lines 274-275; its single argument is whatever the raiser
    passed: a message string (line 171) or the exception object caught by
    [application] (lines 232 and 271).  [KeyboardInterrupt] and [SystemExit]
    derive from BaseException only; every other constructor is an instance
    of Exception.  An exception object is truthy unless its class says
    otherwise: [FalsyException] stands for the instances of an Exception
    subclass whose [__bool__] or [__len__] makes them falsy (an empty
    collection of errors, say). *)
Inductive exn : Type :=
| com_error (hresult : Z)
| AccessDenied
| NoSuchProcess
| UnboundLocalError (var : string)
| KeyboardInterrupt
| SystemExit
| UserException (cls : string)
| FalsyException (cls : string)
| ExcelError (arg : pyarg)
with pyarg : Type :=
| PyStr (s : string)
| PyExn (e : exn).

(** [isinstance(e, Exception)], as tested by [except Exception] (line 231). *)
Definition is_Exception (e : exn) : bool :=
  match e with
  | KeyboardInterrupt | SystemExit => false
  | _ => true
  end.

(** [bool(e)] for an exception object. *)
Definition exn_truthy (e : exn) : bool :=
  match e with
  | FalsyException _ => false
  | _ => true
  end.

(** Python truthiness of the two kinds of value bound to [err_msg]. *)
Definition truthy (v : pyarg) : bool :=
  match v with
  | PyStr s => negb (String.eqb s "")
  | PyExn e => exn_truthy e
  end.

Fixpoint exn_depth (e : exn) : nat :=
  match e with
  | ExcelError (PyExn e') => S (exn_depth e')
  | _ => O
  end.

(** A call either returns a value or raises. *)
Inductive result (A : Type) : Type :=
| Ok (a : A)
| Raise (e : exn).
Arguments Ok {A} a.
Arguments Raise {A} e.

(** ** Strings *)

(** The backslash, written by its code so that no literal ends in one. *)
Definition backslash : ascii := ascii_of_nat 92.

(** [s.replace(old, new)] for a one-character [old]: every occurrence is
    replaced, left to right. *)
Fixpoint str_replace (old : ascii) (new s : string) : string :=
  match s with
  | EmptyString => EmptyString
  | String c rest =>
      if Ascii.eqb c old
      then new +:+ str_replace old new rest
      else String c (str_replace old new rest)
  end.

(** [a in b] on strings: substring containment. *)
Definition str_in (a b : string) : bool :=
  match String.index 0 a b with
  | Some _ => true
  | None => false
  end.

(** ** worksheet_name_sanitization (lines 161-172) *)

(** The tuple iterated on line 168. *)
Definition invalid_chars : list ascii :=
  [backslash; "/"%char; "*"%char; "["%char; "]"%char; ":"%char; "?"%char].

Definition worksheet_name_sanitization (worksheet_name : string) : result string :=
  let worksheet_name :=
    fold_left (fun name char => str_replace char "" name)
              invalid_chars worksheet_name in
  if String.eqb worksheet_name ""
  then Raise (ExcelError (PyStr "Worksheet name cannot be empty string"))
  else Ok (substring 0 31 worksheet_name).

(** ** The host application and the process table

    Workbook objects handed out by COM are references: what Python holds is
    a [handle], and every attribute access goes back to the live host.  A
    handle whose workbook has been closed stays around in Python but every
    use of it raises [com_error] (see the tests on closed workbooks). *)

Definition handle := nat.

Record Window : Type := mkWindow {
  Visible : bool;
  WindowState : Z;
}.

(** [close_fault] is the HRESULT with which the host rejects [Close] for
    this workbook, if it does (host busy, modal dialog, ...). *)
Record Workbook : Type := mkWorkbook {
  FullName : string;
  Windows : list Window;
  close_fault : option Z;
}.

Record AddIn : Type := mkAddIn {
  Installed : bool;
}.

(** What psutil answers for one process: [proc.name()] and [proc.kill()]
    may each succeed, be refused, or find the process gone. *)
Inductive name_reply : Type := NameIs (n : string) | NameDenied | NameGone.
Inductive kill_reply : Type := KillDone | KillDenied | KillGone.

Record Proc : Type := mkProc {
  pid : nat;
  proc_name : name_reply;
  proc_kill : kill_reply;
  serves_com : bool;   (* this process hosts the automation server *)
}.

(** Every state-changing call that the host or the operating system
    carried out is recorded, in order. *)
Inductive event : Type :=
| CoInitialized
| CoUninitialized
| SetAppVisible (v : bool)
| SetDisplayAlerts (v : Z)
| Closed (wb : handle) (SaveChanges : bool)
| SetWindowVisible (wb : handle) (i : nat) (v : bool)
| SetWindowState (wb : handle) (i : nat) (st : Z)
| SetInstalled (i : nat) (v : bool)
| Quitted
| Killed (p : nat).

Record World : Type := mkWorld {
  procs : list Proc;                      (* psutil.process_iter() *)
  alive : bool;                           (* the automation server answers *)
  Workbooks : list (handle * Workbook);   (* app.Workbooks, in order *)
  app_Visible : bool;
  DisplayAlerts : Z;
  StartupPath : string;
  AddIns : list AddIn;
  journal : list event;
}.

Definition with_procs (ps : list Proc) (w : World) : World :=
  mkWorld ps (alive w) (Workbooks w) (app_Visible w) (DisplayAlerts w)
          (StartupPath w) (AddIns w) (journal w).
Definition with_alive (a : bool) (w : World) : World :=
  mkWorld (procs w) a (Workbooks w) (app_Visible w) (DisplayAlerts w)
          (StartupPath w) (AddIns w) (journal w).
Definition with_Workbooks (bs : list (handle * Workbook)) (w : World) : World :=
  mkWorld (procs w) (alive w) bs (app_Visible w) (DisplayAlerts w)
          (StartupPath w) (AddIns w) (journal w).
Definition with_app_Visible (v : bool) (w : World) : World :=
  mkWorld (procs w) (alive w) (Workbooks w) v (DisplayAlerts w)
          (StartupPath w) (AddIns w) (journal w).
Definition with_DisplayAlerts (v : Z) (w : World) : World :=
  mkWorld (procs w) (alive w) (Workbooks w) (app_Visible w) v
          (StartupPath w) (AddIns w) (journal w).
Definition with_AddIns (l : list AddIn) (w : World) : World :=
  mkWorld (procs w) (alive w) (Workbooks w) (app_Visible w) (DisplayAlerts w)
          (StartupPath w) l (journal w).
Definition record (ev : event) (w : World) : World :=
  mkWorld (procs w) (alive w) (Workbooks w) (app_Visible w) (DisplayAlerts w)
          (StartupPath w) (AddIns w) (journal w ++ [ev]).

Arguments with_procs _ _ /.
Arguments with_alive _ _ /.
Arguments with_Workbooks _ _ /.
Arguments with_app_Visible _ _ /.
Arguments with_DisplayAlerts _ _ /.
Arguments with_AddIns _ _ /.
Arguments record _ _ /.

(** The open workbooks form an association list: order is the order of
    [app.Workbooks]. *)
Fixpoint assoc (h : handle) (l : list (handle * Workbook)) : option Workbook :=
  match l with
  | [] => None
  | (k, b) :: rest => if decide (k = h) then Some b else assoc h rest
  end.

Definition on_book (h : handle) (f : Workbook → Workbook)
    (l : list (handle * Workbook)) : list (handle * Workbook) :=
  map (λ kb, if decide (kb.1 = h) then (kb.1, f kb.2) else kb) l.

Definition drop_book (h : handle) (l : list (handle * Workbook)) :
    list (handle * Workbook) :=
  filter (λ kb, kb.1 ≠ h) l.

Definition with_Windows (ws : list Window) (b : Workbook) : Workbook :=
  mkWorkbook (FullName b) ws (close_fault b).

(** ** Calls that change or read the world, and may raise *)

Definition M (A : Type) : Type := World → result A * World.

#[export] Instance M_ret : MRet M := λ A a w, (Ok a, w).
#[export] Instance M_bind : MBind M := λ A B k m w,
  match m w with
  | (Ok a, w') => k a w'
  | (Raise e, w') => (Raise e, w')
  end.

Definition raise {A : Type} (e : exn) : M A := λ w, (Raise e, w).
Definition gets {A : Type} (f : World → A) : M A := λ w, (Ok (f w), w).
Definition modify (f : World → World) : M unit := λ w, (Ok tt, f w).

(** [try: m  except <classes>: handler] *)
Definition try_except {A : Type} (m : M A) (caught : exn → bool)
    (handler : M A) : M A := λ w,
  match m w with
  | (Ok a, w') => (Ok a, w')
  | (Raise e, w') => if caught e then handler w' else (Raise e, w')
  end.

(** The ways in which a COM call fails on its receiver: the server is gone
    (RPC server unavailable), the object behind the reference is (object
    disconnected from its clients), or a collection has no such member. *)
Definition com_server_gone : exn := com_error (-2147023174).
Definition com_object_gone : exn := com_error (-2147417848).
Definition com_bad_index : exn := com_error (-2147352565).

Definition the_app : M unit :=
  gets alive ≫= λ up : bool,
  if up then mret tt else raise com_server_gone.

Definition the_book (wb : handle) : M Workbook :=
  the_app ;;
  gets (λ w, assoc wb (Workbooks w)) ≫= λ found : option Workbook,
  match found with
  | Some b => mret b
  | None => raise com_object_gone
  end.

(** [app.Workbooks], enumerated *)
Definition app_Workbooks : M (list handle) :=
  the_app ;; gets (λ w, map fst (Workbooks w)).

(** [app.DisplayAlerts = v] *)
Definition app_set_DisplayAlerts (v : Z) : M unit :=
  the_app ;; modify (λ w, record (SetDisplayAlerts v) (with_DisplayAlerts v w)).

(** [app.Quit()]: the host is asked to leave; its process lingers while
    references to it are held. *)
Definition app_Quit : M unit :=
  the_app ;; modify (record Quitted).

(** [app.AddIns], enumerated, and [add_in.Installed] *)
Definition app_AddIns : M (list nat) :=
  the_app ;; gets (λ w, seq 0 (length (AddIns w))).

Definition the_addin (i : nat) : M AddIn :=
  the_app ;;
  gets (λ w, AddIns w !! i) ≫= λ found : option AddIn,
  match found with
  | Some a => mret a
  | None => raise com_bad_index
  end.

Definition AddIn_Installed (i : nat) : M bool :=
  a ← the_addin i; mret (Installed a).

Definition AddIn_set_Installed (i : nat) (v : bool) : M unit :=
  the_addin i ;;
  modify (λ w, record (SetInstalled i v)
                 (with_AddIns (<[i := mkAddIn v]> (AddIns w)) w)).

(** [wb.FullName] *)
Definition wb_FullName (wb : handle) : M string :=
  b ← the_book wb; mret (FullName b).

(** [wb.Close(SaveChanges=...)] *)
Definition wb_Close (wb : handle) (SaveChanges : bool) : M unit :=
  the_book wb ≫= λ b : Workbook,
  match close_fault b with
  | Some hr => raise (com_error hr)
  | None => modify (λ w, record (Closed wb SaveChanges)
                           (with_Workbooks (drop_book wb (Workbooks w)) w))
  end.

(** [wb.Application.Visible = v] and [wb.Application.StartupPath] *)
Definition wb_Application_set_Visible (wb : handle) (v : bool) : M unit :=
  the_book wb ;;
  modify (λ w, record (SetAppVisible v) (with_app_Visible v w)).

Definition wb_Application_StartupPath (wb : handle) : M string :=
  the_book wb ;; gets StartupPath.

(** [wb.Windows], enumerated: a window is named by its workbook and its
    position. *)
Definition wb_Windows (wb : handle) : M (list nat) :=
  b ← the_book wb; mret (seq 0 (length (Windows b))).

Definition on_window (wb : handle) (i : nat) (f : Window → Window)
    (ev : event) : M unit :=
  the_book wb ≫= λ b : Workbook,
  match Windows b !! i with
  | Some _ =>
      modify (λ w, record ev
        (with_Workbooks
           (on_book wb (λ b, with_Windows (alter f i (Windows b)) b)
                    (Workbooks w)) w))
  | None => raise com_bad_index
  end.

(** [window.Visible = v] and [window.WindowState = st] *)
Definition window_set_Visible (wb : handle) (i : nat) (v : bool) : M unit :=
  on_window wb i (λ win, mkWindow v (WindowState win)) (SetWindowVisible wb i v).

Definition window_set_WindowState (wb : handle) (i : nat) (st : Z) : M unit :=
  on_window wb i (λ win, mkWindow (Visible win) st) (SetWindowState wb i st).

(** psutil *)
Definition process_iter : M (list Proc) := gets procs.

Definition Process_name (proc : Proc) : M string :=
  match proc_name proc with
  | NameIs n => mret n
  | NameDenied => raise AccessDenied
  | NameGone => raise NoSuchProcess
  end.

(** A successful [proc.kill()] removes the process; when that process
    hosted the automation server, the server and its workbooks go too. *)
Definition after_kill (proc : Proc) (w : World) : World :=
  let w1 := with_procs (filter (λ q, pid q ≠ pid proc) (procs w)) w in
  let w2 := if serves_com proc
            then with_Workbooks [] (with_alive false w1) else w1 in
  record (Killed (pid proc)) w2.

Definition Process_kill (proc : Proc) : M unit :=
  match proc_kill proc with
  | KillDone => modify (after_kill proc)
  | KillDenied => raise AccessDenied
  | KillGone => raise NoSuchProcess
  end.

(** pythoncom and win32com.client *)
Definition CoInitialize : M unit := modify (record CoInitialized).
Definition CoUninitialize : M unit := modify (record CoUninitialized).

Definition fresh_pid (ps : list Proc) : nat := S (list_max (map pid ps)).

(** [win32com.client.Dispatch("Excel.Application")] attaches to the running
    server or starts one: hidden, without workbooks, alerts on. *)
Definition launched (w : World) : World :=
  with_DisplayAlerts 1 (with_app_Visible false (with_Workbooks []
    (with_alive true
       (with_procs (procs w ++ [mkProc (fresh_pid (procs w))
                                  (NameIs EXCEL_PROCESS_NAME) KillDone true]) w)))).

Definition Dispatch : M unit :=
  gets alive ≫= λ up : bool,
  if up then mret tt else modify launched.

(** ** The toolkit (src/safexl/toolkit.py) *)

Definition is_AccessDenied (e : exn) : bool :=
  match e with AccessDenied => true | _ => false end.

Definition is_AccessDenied_or_NoSuchProcess (e : exn) : bool :=
  match e with AccessDenied | NoSuchProcess => true | _ => false end.

(** is_excel_open (lines 21-32).  The loop either returns [True] from
    inside the [try] or falls through to the next process; only
    [AccessDenied] is passed over. *)
Fixpoint is_excel_open_loop (ps : list Proc) : M bool :=
  match ps with
  | [] => mret false
  | proc :: rest =>
      try_except
        (Process_name proc ≫= λ n : string,
         mret (String.eqb n EXCEL_PROCESS_NAME))
        is_AccessDenied (mret false) ≫= λ found : bool,
      if found then mret true else is_excel_open_loop rest
  end.

Definition is_excel_open : M bool :=
  process_iter ≫= is_excel_open_loop.

(** close_workbooks (lines 91-101).  There is one application object, so
    the [app] argument is left implicit. *)
Fixpoint close_workbooks (workbooks : list handle) : M unit :=
  match workbooks with
  | [] => mret tt
  | wb :: rest =>
      app_set_DisplayAlerts 0 ;;
      wb_Close wb false ;;
      app_set_DisplayAlerts 1 ;;
      close_workbooks rest
  end.

(** workbooks_currently_open (lines 127-134) *)
Definition workbooks_currently_open : M (list handle) := app_Workbooks.

(** kill_all_instances_of_excel (lines 53-72).  [app] tells whether an
    application object was passed; the live collection [app.Workbooks] is
    then enumerated once, before the first workbook is closed. *)
Fixpoint kill_loop (ps : list Proc) : M unit :=
  match ps with
  | [] => mret tt
  | proc :: rest =>
      try_except
        (Process_name proc ≫= λ n : string,
         if String.eqb n EXCEL_PROCESS_NAME then Process_kill proc else mret tt)
        is_AccessDenied_or_NoSuchProcess (mret tt) ;;
      kill_loop rest
  end.

Definition kill_all_instances_of_excel (app : bool) : M unit :=
  (if app
   then app_Workbooks ≫= close_workbooks ;; app_Quit
   else mret tt) ;;
  process_iter ≫= kill_loop.

(** new_workbooks (lines 75-88).  [FullNames] is the set comprehension
    [set(wb.FullName for wb in wbs)], [select_FullName_in] the list
    comprehension of line 88; both read [FullName] through the handle at
    the time of the call. *)
Fixpoint FullNames (wbs : list handle) : M (gset string) :=
  match wbs with
  | [] => mret ∅
  | wb :: rest =>
      wb_FullName wb ≫= λ n : string,
      FullNames rest ≫= λ names : gset string,
      mret ({[ n ]} ∪ names)
  end.

Fixpoint select_FullName_in (paths : gset string) (wbs : list handle) :
    M (list handle) :=
  match wbs with
  | [] => mret []
  | wb :: rest =>
      wb_FullName wb ≫= λ n : string,
      select_FullName_in paths rest ≫= λ chosen : list handle,
      mret (if decide (n ∈ paths) then wb :: chosen else chosen)
  end.

Definition new_workbooks (workbooks_open_at_onset : list handle) :
    M (list handle) :=
  FullNames workbooks_open_at_onset ≫= λ paths_for_workbooks_open_at_onset,
  workbooks_currently_open ≫= λ currently_open_workbooks,
  FullNames currently_open_workbooks ≫= λ paths_for_currently_open_workbooks,
  let paths_for_new_workbooks :=
    paths_for_currently_open_workbooks ∖ paths_for_workbooks_open_at_onset in
  select_FullName_in paths_for_new_workbooks currently_open_workbooks.

(** see_excel (lines 104-124) *)
Fixpoint see_windows (wb : handle) (windows : list nat) (window_state : Z) :
    M unit :=
  match windows with
  | [] => mret tt
  | window :: rest =>
      window_set_Visible wb window true ;;
      window_set_WindowState wb window window_state ;;
      see_windows wb rest window_state
  end.

Fixpoint see_excel (workbooks : list handle) (window_state : Z) : M unit :=
  match workbooks with
  | [] => mret tt
  | wb :: rest =>
      wb_Application_set_Visible wb true ;;
      wb_Application_StartupPath wb ≫= λ startup : string,
      wb_FullName wb ≫= λ full_name : string,
      (if str_in startup full_name
       then mret tt
       else wb_Windows wb ≫= λ windows, see_windows wb windows window_state) ;;
      see_excel rest window_state
  end.

(** The add-in loop of lines 254-257. *)
Fixpoint reload_addins (add_ins : list nat) : M unit :=
  match add_ins with
  | [] => mret tt
  | add_in :: rest =>
      AddIn_Installed add_in ≫= λ installed : bool,
      (if installed
       then AddIn_set_Installed add_in false ;; AddIn_set_Installed add_in true
       else mret tt) ;;
      reload_addins rest
  end.

(** application (lines 175-271), a generator wrapped by [@contextmanager].
    [application_enter] is the code up to the [yield] (lines 219-225) and
    returns [workbooks_open_at_onset]; the body of the [with] statement runs
    at the [yield]; [application_finally] is the [finally] suite.

    [err_msg] is a local that is bound by the [except Exception] clause (to
    the exception) or by the [else] clause (to the empty string), and is
    unbound when the body raised something that is not an [Exception]. *)
Definition application_enter : M (list handle) :=
  is_excel_open ≫= λ open_at_onset : bool,
  CoInitialize ;;
  Dispatch ;;
  if open_at_onset then workbooks_currently_open else mret [].

Definition read_local (name : string) (v : option pyarg) : M pyarg :=
  match v with
  | Some x => mret x
  | None => raise (UnboundLocalError name)
  end.

Definition application_finally (kill_after maximize include_addins : bool)
    (workbooks_open_at_onset : list handle) (err_msg : option pyarg) : M unit :=
  new_workbooks workbooks_open_at_onset ≫= λ workbooks_opened_during_with_block,
  (if kill_after then mret true
   else read_local "err_msg" err_msg ≫= λ v, mret (truthy v)) ≫= λ cleanup : bool,
  (if cleanup then
     if bool_decide (workbooks_open_at_onset ≠ [])
     then close_workbooks workbooks_opened_during_with_block
     else kill_all_instances_of_excel false
   else
     (if include_addins then app_AddIns ≫= reload_addins else mret tt) ;;
     if maximize
     then see_excel workbooks_opened_during_with_block (-4137)
     else see_excel workbooks_opened_during_with_block (-4140)) ;;
  CoUninitialize ;;
  read_local "err_msg" err_msg ≫= λ v,
  if truthy v then raise (ExcelError v) else mret tt.

(** What the [try] statement makes of the body's outcome: the binding of
    [err_msg], and the exception that is still pending when no clause
    caught it. *)
Definition err_msg_of (outcome : result unit) : option pyarg :=
  match outcome with
  | Ok _ => Some (PyStr "")
  | Raise e => if is_Exception e then Some (PyExn e) else None
  end.

Definition pending_of (outcome : result unit) : option exn :=
  match outcome with
  | Ok _ => None
  | Raise e => if is_Exception e then None else Some e
  end.

Definition application (kill_after maximize include_addins : bool)
    (body : M unit) : M unit := λ w0,
  match application_enter w0 with
  | (Raise e, w1) => (Raise e, w1)
  | (Ok workbooks_open_at_onset, w1) =>
      let '(outcome, w2) := body w1 in
      match application_finally kill_after maximize include_addins
              workbooks_open_at_onset (err_msg_of outcome) w2 with
      | (Raise e, w3) => (Raise e, w3)
      | (Ok _, w3) =>
          match pending_of outcome with
          | Some e => (Raise e, w3)
          | None => (Ok tt, w3)
          end
      end
  end.

(** ** A desk to run the toolkit on

    Three states of the machine and a few [with]-bodies, used to run the
    definitions above on concrete inputs. *)

Definition excel_7 : Proc := mkProc 7 (NameIs "EXCEL.EXE") KillDone true.
Definition explorer_1 : Proc := mkProc 1 (NameIs "explorer.exe") KillDenied false.

Definition Book1 : Workbook :=
  mkWorkbook "Book1" [mkWindow true (-4143)] None.

(** The host is not running. *)
Definition desk_quiet : World :=
  mkWorld [explorer_1] false [] false 1 "C:\XLSTART"
          [mkAddIn true; mkAddIn false] [].

(** The host is running and has no workbook open. *)
Definition desk_idle : World :=
  mkWorld [explorer_1; excel_7] true [] false 1 "C:\XLSTART"
          [mkAddIn true; mkAddIn false] [].

(** The host is running with one workbook open. *)
Definition desk_busy : World :=
  mkWorld [explorer_1; excel_7] true [(1%nat, Book1)] true 1 "C:\XLSTART"
          [mkAddIn true; mkAddIn false] [].

Definition Book2 : Workbook :=
  mkWorkbook "Book2" [mkWindow false (-4143); mkWindow false (-4143)] None.

(** Two workbooks open, alerts switched off by an earlier caller. *)
Definition desk_two_muted : World :=
  mkWorld [explorer_1; excel_7] true [(1%nat, Book1); (2%nat, Book2)] true 0
          "C:\XLSTART" [mkAddIn true; mkAddIn false] [].

(** [app.Workbooks.Add()] and [app.Workbooks.Open(...)], giving the new
    workbook the handle [h]. *)
Definition Workbooks_Add (h : handle) (b : Workbook) : M unit :=
  the_app ;; modify (λ w, with_Workbooks (Workbooks w ++ [(h, b)]) w).

(** A workbook saved in a folder next to the startup folder, whose name
    merely begins like it; its only window is hidden. *)
Definition Plan : Workbook :=
  mkWorkbook "C:\XLSTART2\plan.xlsx" [mkWindow false (-4143)] None.

Definition desk_sibling : World :=
  mkWorld [explorer_1; excel_7] true [(3%nat, Plan)] false 1 "C:\XLSTART"
          [mkAddIn true; mkAddIn false] [].

(** A macro workbook in the startup folder, with its hidden window. *)
Definition Macros : Workbook :=
  mkWorkbook "C:\XLSTART\macros.xlsm" [mkWindow false (-4143)] None.

(** A workbook that the host refuses to close (call rejected by callee). *)
Definition Stuck : Workbook :=
  mkWorkbook "Book3" [mkWindow false (-4143)] (Some (-2147418111)%Z).

(** The host runs without workbooks, in a process that may not be killed. *)
Definition excel_9_guarded : Proc := mkProc 9 (NameIs "EXCEL.EXE") KillDenied true.

Definition desk_guarded : World :=
  mkWorld [excel_9_guarded; explorer_1] true [] false 1 "C:\XLSTART"
          [mkAddIn true; mkAddIn false] [].

(** Bodies of a [with] statement: one adds a workbook and then fails as in
    the tests (an invalid sheet name), one adds the workbook that cannot be
    closed and fails, one fails at once. *)
Definition body_adds_then_fails : M unit :=
  Workbooks_Add 2 Book2 ;; raise (UserException "ValueError").

Definition body_adds_stuck_then_fails : M unit :=
  Workbooks_Add 5 Stuck ;; raise (UserException "ValueError").

Definition body_fails : M unit := raise (UserException "ValueError").


Definition body_closes_onset_workbook : M unit :=
  Workbooks_Add 2 Book2 ;; wb_Close 1 false.

(** The host goes down while the body runs. *)
Definition body_loses_host : M unit :=
  modify (λ w, with_Workbooks [] (with_alive false w)).

(** What [proc.open_files()] answers on a desk where the host holds a
    temporary file and a saved workbook, and [explorer.exe] refuses. *)
Definition desk_open_files (p : Proc) : result (list string) :=
  if Nat.eqb (pid p) 7 then Ok ["C:\Temp\a1b2.tmp"; "C:\Docs\plan.xlsx"]
  else Raise AccessDenied.

(** A body that adds a workbook and then raises an exception whose object
    is falsy, and a body that adds the workbook and returns. *)
Definition body_adds_then_fails_falsy : M unit :=
  Workbooks_Add 2 Book2 ;; raise (FalsyException "EmptyErrors").

Definition body_adds : M unit := Workbooks_Add 2 Book2.

(** ** Vocabulary of the statements *)

Abbreviation chars := list_ascii_of_string.

(** The characters of [s] that survive line 169, in their original order. *)
Definition kept_chars (s : string) : list ascii :=
  filter (λ c, c ∉ invalid_chars) (chars s).

(** A handle is live when the host still has its workbook open. *)
Definition live (w : World) (h : handle) : Prop :=
  is_Some (assoc h (Workbooks w)).

Definition FullName_at (w : World) (h : handle) : string :=
  match assoc h (Workbooks w) with
  | Some b => FullName b
  | None => ""
  end.

(** The identity keys of a snapshot, read in world [w]. *)
Definition keys (w : World) (hs : list handle) : gset string :=
  list_to_set (map (FullName_at w) hs).

(** [w'] continues the journal of [w] with events that all satisfy [P]. *)
Definition journal_grows (P : event → Prop) (w w' : World) : Prop :=
  ∃ evs, journal w' = journal w ++ evs ∧ Forall P evs.

(** The events of [close_workbooks]: alerts switched, workbooks closed
    without saving. *)
Definition closing_event (ev : event) : Prop :=
  match ev with
  | SetDisplayAlerts _ | Closed _ false => True
  | _ => False
  end.

(** The events of [see_excel] and of the add-in loop. *)
Definition reveal_event (ev : event) : Prop :=
  match ev with
  | SetAppVisible _ | SetWindowVisible _ _ _ | SetWindowState _ _ _ => True
  | _ => False
  end.

Definition addin_event (ev : event) : Prop :=
  match ev with
  | SetInstalled _ _ => True
  | _ => False
  end.

(** The part of the world that neither closing nor revealing workbooks
    touches. *)
Definition same_host (w w' : World) : Prop :=
  procs w' = procs w ∧ alive w' = alive w
  ∧ StartupPath w' = StartupPath w ∧ AddIns w' = AddIns w.

(** One round of the loop of lines 98-101, whatever its outcome. *)
Definition close_round (wb : handle) : M unit :=
  app_set_DisplayAlerts 0 ;; wb_Close wb false ;; app_set_DisplayAlerts 1.

(** What closing the workbooks [hs] can do to the world, whether the loop
    runs to its end or stops at a failing call: the host and every process
    stay, the journal grows by closing events, and each workbook is either
    as it was or is one of [hs] and now closed. *)
Definition only_closing (hs : list handle) (w w' : World) : Prop :=
  same_host w w'
  ∧ app_Visible w' = app_Visible w
  ∧ journal_grows closing_event w w'
  ∧ (∀ h, assoc h (Workbooks w') = assoc h (Workbooks w)
          ∨ (h ∈ hs ∧ assoc h (Workbooks w') = None)).

(** The journal entries of one completed round of [close_workbooks]. *)
Definition close_events (wb : handle) : list event :=
  [SetDisplayAlerts 0; Closed wb false; SetDisplayAlerts 1].

(** A process that [kill_all_instances_of_excel] terminates: it answers
    with the host's name and lets itself be killed. *)
Definition killable (proc : Proc) : bool :=
  match proc_name proc, proc_kill proc with
  | NameIs n, KillDone => String.eqb n EXCEL_PROCESS_NAME
  | _, _ => false
  end.

(** The world after the loop of lines 65-72 has gone over [ps]. *)
Definition kill_sweep (ps : list Proc) (w : World) : World :=
  foldl (λ w proc, if killable proc then after_kill proc w else w) w ps.

(** A window after lines 123-124, and a workbook all of whose windows
    went through them. *)
Definition shown_window (window_state : Z) (win : Window) : Window :=
  mkWindow true window_state.

Definition shown (window_state : Z) (b : Workbook) : Workbook :=
  with_Windows (shown_window window_state <$> Windows b) b.

(** The windows [ws] after the loop of lines 122-124 went over the
    positions [idx]. *)
Definition paint (idx : list nat) (window_state : Z) (ws : list Window) :
    list Window :=
  foldl (λ ws i, alter (shown_window window_state) i ws) ws idx.

(** The events of [see_excel workbooks window_state]. *)
Definition reveal_with (window_state : Z) (ev : event) : Prop :=
  match ev with
  | SetAppVisible v | SetWindowVisible _ _ v => v = true
  | SetWindowState _ _ st => st = window_state
  | _ => False
  end.

(** [see_excel] passes over a workbook when line 119 finds the startup
    path inside its full name. *)
Definition passed_over (w : World) (h : handle) : bool :=
  str_in (StartupPath w) (FullName_at w h).

(** Following the specification's words for the exclusion rule of
    [reveal]: a path lies under a directory when it consists of the
    directory's path, a separator, and more. *)
Definition is_separator (c : ascii) : bool :=
  Ascii.eqb c backslash || Ascii.eqb c "/"%char.

Definition ends_with_separator (dir : string) : bool :=
  match String.get (Nat.pred (String.length dir)) dir with
  | Some c => is_separator c
  | None => false
  end.

Definition lies_under (dir path : string) : bool :=
  String.prefix dir path
  && (ends_with_separator dir
      || match String.get (String.length dir) path with
         | Some c => is_separator c
         | None => false
         end).

(** The journal entries of the add-in loop for the add-in at position [i]. *)
Definition toggle_events (add_ins : list AddIn) (i : nat) : list event :=
  match add_ins !! i with
  | Some a => if Installed a then [SetInstalled i false; SetInstalled i true] else []
  | None => []
  end.

(** What lines 270-271 make of [err_msg]. *)
Definition report_of (err_msg : option pyarg) : result unit :=
  match err_msg with
  | None => Raise (UnboundLocalError "err_msg")
  | Some v => if truthy v then Raise (ExcelError v) else Ok tt
  end.

(** The two suites of the [if] on line 239. *)
Definition cleanup_suite (workbooks_open_at_onset created : list handle) : M unit :=
  if bool_decide (workbooks_open_at_onset ≠ [])
  then close_workbooks created
  else kill_all_instances_of_excel false.

Definition reveal_suite (maximize include_addins : bool) (created : list handle) :
    M unit :=
  (if include_addins then app_AddIns ≫= reload_addins else mret tt) ;;
  if maximize then see_excel created (-4137) else see_excel created (-4140).

(** The test of line 239, [kill_after or err_msg], comes out true:
    [kill_after] is set, or [err_msg] is bound to a truthy value, that is,
    to an [Exception] of the body whose object is truthy.  (With
    [kill_after] off and [err_msg] unbound the test raises.) *)
Definition cleanup_path (kill_after : bool) (outcome : result unit) : bool :=
  kill_after || match err_msg_of outcome with
                | Some v => truthy v
                | None => false
                end.

(** The clean-up ran to its end: what reaches the caller is not the
    [com_error] of a call made while reconciling, but a normal return or
    what lines 270-271 raise. *)
Definition reconciled (r : result unit) : Prop :=
  match r with
  | Raise (com_error _) => False
  | _ => True
  end.

(** An event that belongs neither to [see_excel] nor to the add-in loop. *)
Definition quiet_event (ev : event) : Prop :=
  ¬ reveal_event ev ∧ ¬ addin_event ev.

(** The window state that [application] passes to [see_excel]
    (lines 263-266). *)
Definition requested_state (maximize : bool) : Z :=
  if maximize then -4137 else -4140.

(** ** excel_open_files (lines 35-50)

    [proc.open_files()] is one more answer of psutil: the paths of the
    files a process holds open, or an exception.  It is a parameter of the
    embedding.  The list comprehension of line 47 is evaluated before
    [result.extend], so a process whose files cannot be read adds
    nothing. *)
Fixpoint excel_open_files_loop (open_files : Proc → result (list string))
    (ps : list Proc) (result : list string) : M (list string) :=
  match ps with
  | [] => mret result
  | proc :: rest =>
      try_except
        (Process_name proc ≫= λ n : string,
         if String.eqb n EXCEL_PROCESS_NAME
         then match open_files proc with
              | Ok paths => mret (result ++ paths)
              | Raise e => raise e
              end
         else mret result)
        is_AccessDenied (mret result) ≫= λ result' : list string,
      excel_open_files_loop open_files rest result'
  end.

Definition excel_open_files (open_files : Proc → result (list string)) :
    M (list string) :=
  process_iter ≫= λ ps, excel_open_files_loop open_files ps [].

(** ** Vocabulary for the process table *)

(** [proc.name() == EXCEL_PROCESS_NAME] holds; [proc.name()] finds the
    process gone. *)
Definition answers_excel (p : Proc) : bool :=
  match proc_name p with
  | NameIs n => String.eqb n EXCEL_PROCESS_NAME
  | _ => false
  end.

Definition vanished (p : Proc) : bool :=
  match proc_name p with
  | NameGone => true
  | _ => false
  end.

(** What the loop of [is_excel_open] finds in a process list. *)
Fixpoint scan_for_excel (ps : list Proc) : result bool :=
  match ps with
  | [] => Ok false
  | p :: rest =>
      if answers_excel p then Ok true
      else if vanished p then Raise NoSuchProcess
      else scan_for_excel rest
  end.

(** The paths that [excel_open_files] takes from one process. *)
Definition paths_taken (open_files : Proc → result (list string)) (p : Proc) :
    list string :=
  if answers_excel p
  then match open_files p with
       | Ok paths => paths
       | Raise _ => []
       end
  else [].

(** A process after which [excel_open_files] goes on: its name can be read
    or is refused, and if it is the host's, its files can be read or are
    refused. *)
Definition files_readable_or_denied (open_files : Proc → result (list string))
    (p : Proc) : Prop :=
  vanished p = false
  ∧ (answers_excel p = true →
       match open_files p with
       | Ok _ | Raise AccessDenied => True
       | Raise _ => False
       end).

(** An event that is not the killing of a process. *)
Definition graceful_event (ev : event) : Prop :=
  match ev with
  | Killed _ => False
  | _ => True
  end.

(** One round of the loop of [see_excel] (lines 115-124). *)
Definition see_round (wb : handle) (window_state : Z) : M unit :=
  wb_Application_set_Visible wb true ;;
  wb_Application_StartupPath wb ≫= λ startup : string,
  wb_FullName wb ≫= λ full_name : string,
  if str_in startup full_name
  then mret tt
  else wb_Windows wb ≫= λ windows, see_windows wb windows window_state.

(** What [see_excel] leaves alone: processes, server, startup path,
    add-ins, alerts, and which workbooks are open under which name. *)
Definition same_books (w w' : World) : Prop :=
  same_host w w'
  ∧ DisplayAlerts w' = DisplayAlerts w
  ∧ map fst (Workbooks w') = map fst (Workbooks w)
  ∧ (∀ h, FullName_at w' h = FullName_at w h).

(** A handle whose workbook is open and accepts [Close]. *)
Definition closable (w : World) (h : handle) : Prop :=
  ∃ b, assoc h (Workbooks w) = Some b ∧ close_fault b = None.

(* ===================================================================== *)
(** * Part II.  Properties                                                *)
(* ===================================================================== *)

(** ** Strings as character lists *)

Lemma chars_inj (a b : string) : chars a = chars b -> a = b.
Proof.
  intros H. rewrite <- (string_of_list_ascii_of_string a),
    <- (string_of_list_ascii_of_string b). by rewrite H.
Qed.

Lemma chars_nil (s : string) : chars s = [] <-> s = "".
Proof. destruct s; simpl; split; congruence. Qed.


Lemma chars_substring_0 (n : nat) (s : string) :
  chars (substring 0 n s) = take n (chars s).
Proof.
  revert s; induction n as [|n IH]; intros [|c s]; simpl; try done.
  by rewrite IH.
Qed.

Lemma chars_str_replace_del (old : ascii) (s : string) :
  chars (str_replace old "" s) = filter (λ c, c ≠ old) (chars s).
Proof.
  induction s as [|c s IH]; [done|].
  cbn [str_replace list_ascii_of_string]. rewrite filter_cons.
  destruct (Ascii.eqb_spec c old) as [->|Hne].
  - rewrite decide_False by (intros H; by apply H). exact IH.
  - rewrite decide_True by done. cbn [list_ascii_of_string]. by rewrite IH.
Qed.

Lemma filter_all {A} (P : A → Prop) `{∀ x, Decision (P x)} (l : list A) :
  (∀ x, x ∈ l → P x) → filter P l = l.
Proof.
  induction l as [|a l IH]; intros Hall; [done|].
  rewrite filter_cons_True by (apply Hall; left).
  f_equal. apply IH. intros x Hx. apply Hall. by right.
Qed.

Lemma filter_iff_in {A} (P Q : A → Prop) `{∀ x, Decision (P x)}
    `{∀ x, Decision (Q x)} (l : list A) :
  (∀ x, x ∈ l → P x ↔ Q x) → filter P l = filter Q l.
Proof.
  induction l as [|a l IH]; intros Hall; [done|].
  rewrite !filter_cons, IH by (intros x Hx; apply Hall; by right).
  pose proof (Hall a (list_elem_of_here a l)) as Ha.
  destruct (decide (P a)), (decide (Q a)); tauto.
Qed.

Lemma chars_strip (cs : list ascii) (s : string) :
  chars (fold_left (fun name char => str_replace char "" name) cs s)
  = filter (λ c, c ∉ cs) (chars s).
Proof.
  revert s; induction cs as [|c cs IH]; intros s; simpl.
  - symmetry. apply filter_all. intros x _. apply not_elem_of_nil.
  - rewrite IH, chars_str_replace_del, list_filter_filter.
    apply list_filter_iff. intros x. rewrite not_elem_of_cons. tauto.
Qed.

Lemma sanitization_unfold (s : string) :
  worksheet_name_sanitization s =
    if decide (kept_chars s = [])
    then Raise (ExcelError (PyStr "Worksheet name cannot be empty string"))
    else Ok (string_of_list_ascii (take 31 (kept_chars s))).
Proof.
  unfold worksheet_name_sanitization, kept_chars.
  rewrite <- chars_strip.
  set (t := fold_left _ invalid_chars s).
  destruct (String.eqb_spec t "") as [E|E].
  - rewrite decide_True; [done | by apply chars_nil].
  - rewrite decide_False by (by rewrite chars_nil).
    f_equal. apply chars_inj.
    by rewrite chars_substring_0, list_ascii_of_string_of_list_ascii.
Qed.


Lemma kept_chars_take_kept (n : nat) (x : string) :
  kept_chars (string_of_list_ascii (take n (kept_chars x))) = take n (kept_chars x).
Proof.
  unfold kept_chars at 1. rewrite list_ascii_of_string_of_list_ascii.
  apply filter_all. intros c Hin.
  apply elem_of_take in Hin as (i & Hi & _).
  apply list_elem_of_lookup_2 in Hi.
  by apply list_elem_of_filter in Hi as [Hn _].
Qed.

(** C8.  Sanitizing is idempotent on every input it accepts. *)
Theorem sanitization_idempotent (x y : string) :
  worksheet_name_sanitization x = Ok y →
  worksheet_name_sanitization y = Ok y.
Proof.
  rewrite (sanitization_unfold x). case_decide as E; [done|].
  intros [= <-]. rewrite sanitization_unfold, kept_chars_take_kept.
  rewrite decide_False by (destruct (kept_chars x); [done | discriminate]).
  by rewrite take_take.
Qed.

Lemma sanitization_idempotent_witness :
  worksheet_name_sanitization "Q1: sales/costs [draft]?" = Ok "Q1 salescosts draft"
  ∧ worksheet_name_sanitization "Q1 salescosts draft" = Ok "Q1 salescosts draft".
Proof.
  split; [reflexivity|].
  apply (sanitization_idempotent "Q1: sales/costs [draft]?"). reflexivity.
Defined.

(** ** Running a computation *)

Lemma run_bind {A B} (m : M A) (k : A → M B) (w : World) :
  (m ≫= k) w =
    match m w with
    | (Ok a, w') => k a w'
    | (Raise e, w') => (Raise e, w')
    end.
Proof. reflexivity. Qed.

Lemma run_ret {A} (a : A) (w : World) : (mret a : M A) w = (Ok a, w).
Proof. reflexivity. Qed.

Lemma the_app_run (w : World) :
  the_app w = if alive w then (Ok tt, w) else (Raise com_server_gone, w).
Proof. unfold the_app. rewrite run_bind. unfold gets. by destruct (alive w). Qed.

Lemma the_book_run (wb : handle) (w : World) :
  the_book wb w =
    if alive w then
      match assoc wb (Workbooks w) with
      | Some b => (Ok b, w)
      | None => (Raise com_object_gone, w)
      end
    else (Raise com_server_gone, w).
Proof.
  unfold the_book. rewrite run_bind, the_app_run.
  destruct (alive w); [|done]. rewrite run_bind. unfold gets.
  by destruct (assoc wb (Workbooks w)).
Qed.

Lemma wb_FullName_run (wb : handle) (w : World) :
  wb_FullName wb w =
    if alive w then
      match assoc wb (Workbooks w) with
      | Some b => (Ok (FullName b), w)
      | None => (Raise com_object_gone, w)
      end
    else (Raise com_server_gone, w).
Proof.
  unfold wb_FullName. rewrite run_bind, the_book_run.
  destruct (alive w); [|done]. by destruct (assoc wb (Workbooks w)).
Qed.

Lemma wb_FullName_live (wb : handle) (w : World) :
  alive w = true → live w wb →
  wb_FullName wb w = (Ok (FullName_at w wb), w).
Proof.
  intros Hup [b Hb]. rewrite wb_FullName_run, Hup.
  unfold FullName_at. by rewrite Hb.
Qed.

Lemma app_Workbooks_run (w : World) :
  app_Workbooks w =
    if alive w then (Ok (map fst (Workbooks w)), w)
    else (Raise com_server_gone, w).
Proof.
  unfold app_Workbooks. rewrite run_bind, the_app_run. by destruct (alive w).
Qed.

Lemma assoc_Some_fst (h : handle) (l : list (handle * Workbook)) :
  is_Some (assoc h l) ↔ h ∈ map fst l.
Proof.
  induction l as [|[k b] l IH]; simpl.
  - split; [by intros [? ?] | by intros ?%elem_of_nil].
  - case_decide as E; subst.
    + split; [intros _; left | by eauto].
    + rewrite IH, elem_of_cons. split; [by right | by intros [?|?]].
Qed.

Lemma current_live (w : World) : Forall (live w) (map fst (Workbooks w)).
Proof. apply Forall_forall. intros h Hh. by apply assoc_Some_fst. Qed.

(** ** new_workbooks *)

Lemma FullNames_pure (wbs : list handle) (w : World) :
  (FullNames wbs w).2 = w.
Proof.
  induction wbs as [|wb rest IH]; [done|].
  cbn [FullNames]. rewrite run_bind, wb_FullName_run.
  destruct (alive w); [|done].
  destruct (assoc wb (Workbooks w)); [|done].
  rewrite run_bind. destruct (FullNames rest w) as [[s|e] w'] eqn:E;
    simpl in IH; subst; done.
Qed.

Lemma FullNames_live (wbs : list handle) (w : World) :
  alive w = true → Forall (live w) wbs →
  FullNames wbs w = (Ok (keys w wbs), w).
Proof.
  intros Hup. induction 1 as [|wb rest Hwb _ IH]; [done|].
  cbn [FullNames]. rewrite run_bind, wb_FullName_live by done.
  by rewrite run_bind, IH.
Qed.

Lemma FullNames_Ok_inv (wbs : list handle) (w w' : World) (s : gset string) :
  alive w = true → FullNames wbs w = (Ok s, w') → Forall (live w) wbs.
Proof.
  intros Hup. revert s. induction wbs as [|wb rest IH]; intros s; [by constructor|].
  cbn [FullNames]. rewrite run_bind, wb_FullName_run, Hup.
  destruct (assoc wb (Workbooks w)) as [b|] eqn:Hb; [|done].
  rewrite run_bind. destruct (FullNames rest w) as [[s'|e] w''] eqn:E; [|done].
  rewrite run_ret. intros [= _ <-]. constructor; [by exists b | by eapply IH].
Qed.

Lemma select_FullName_in_pure (paths : gset string) (wbs : list handle) (w : World) :
  (select_FullName_in paths wbs w).2 = w.
Proof.
  induction wbs as [|wb rest IH]; [done|].
  cbn [select_FullName_in]. rewrite run_bind, wb_FullName_run.
  destruct (alive w); [|done].
  destruct (assoc wb (Workbooks w)); [|done].
  rewrite run_bind. destruct (select_FullName_in paths rest w) as [[s|e] w'] eqn:E;
    simpl in IH; subst; done.
Qed.

Lemma select_FullName_in_live (paths : gset string) (wbs : list handle) (w : World) :
  alive w = true → Forall (live w) wbs →
  select_FullName_in paths wbs w
  = (Ok (filter (λ h, FullName_at w h ∈ paths) wbs), w).
Proof.
  intros Hup. induction 1 as [|wb rest Hwb _ IH]; [done|].
  cbn [select_FullName_in]. rewrite run_bind, wb_FullName_live by done.
  rewrite run_bind, IH, run_ret, filter_cons. by case_decide.
Qed.

Lemma keys_elem (w : World) (hs : list handle) (h : handle) :
  h ∈ hs → FullName_at w h ∈ keys w hs.
Proof.
  intros Hh. unfold keys. apply elem_of_list_to_set, list_elem_of_fmap.
  by exists h.
Qed.

Lemma new_workbooks_pure (onset : list handle) (w : World) :
  (new_workbooks onset w).2 = w.
Proof.
  unfold new_workbooks. rewrite run_bind.
  pose proof (FullNames_pure onset w) as H1.
  destruct (FullNames onset w) as [[s|e] w1]; simpl in H1; subst; [|done].
  rewrite run_bind. unfold workbooks_currently_open. rewrite app_Workbooks_run.
  destruct (alive w); [|done]. rewrite run_bind.
  pose proof (FullNames_pure (map fst (Workbooks w)) w) as H2.
  destruct (FullNames (map fst (Workbooks w)) w) as [[s'|e] w2];
    simpl in H2; subst; [|done].
  apply select_FullName_in_pure.
Qed.

Lemma new_workbooks_live (onset : list handle) (w : World) :
  alive w = true → Forall (live w) onset →
  new_workbooks onset w
  = (Ok (filter (λ h, FullName_at w h ∉ keys w onset) (map fst (Workbooks w))), w).
Proof.
  intros Hup Hon. unfold new_workbooks.
  rewrite run_bind, FullNames_live by done.
  rewrite run_bind. unfold workbooks_currently_open.
  rewrite app_Workbooks_run, Hup.
  rewrite run_bind, FullNames_live by (done || apply current_live).
  rewrite select_FullName_in_live by (done || apply current_live).
  f_equal. f_equal. apply filter_iff_in. intros h Hh.
  rewrite elem_of_difference. split; [tauto|].
  intros Hn. split; [by apply keys_elem | done].
Qed.

Lemma elem_of_keys (w : World) (hs : list handle) (x : string) :
  x ∈ keys w hs ↔ ∃ h, x = FullName_at w h ∧ h ∈ hs.
Proof. unfold keys. by rewrite elem_of_list_to_set, list_elem_of_fmap. Qed.

Lemma keys_filter_diff (w : World) (before after : list handle) :
  keys w (filter (λ h, FullName_at w h ∉ keys w before) after)
  = keys w after ∖ keys w before.
Proof.
  apply set_eq. intros x.
  rewrite elem_of_difference, (elem_of_keys w (filter _ _)), (elem_of_keys w after).
  split.
  - intros (h & -> & Hh). apply list_elem_of_filter in Hh as [Hn Hh].
    split; [by exists h | done].
  - intros [(h & -> & Hh) Hn]. exists h. split; [done|].
    by apply list_elem_of_filter.
Qed.

(** C6.  [new_workbooks] reads nothing but names and changes nothing.
    Called with a snapshot [before] whose handles are still open, it
    returns exactly the currently open workbooks whose [FullName] is not the
    [FullName] of a member of [before], in the order of [app.Workbooks];
    so the keys of the result are the keys of the current snapshot minus
    those of [before], and the difference of a snapshot with itself is
    empty. *)
Theorem new_workbooks_is_diff (before : list handle) (w : World) :
  alive w = true →
  Forall (live w) before →
  let after := map fst (Workbooks w) in
  let created := filter (λ h, FullName_at w h ∉ keys w before) after in
  new_workbooks before w = (Ok created, w)
  ∧ keys w created = keys w after ∖ keys w before
  ∧ new_workbooks after w = (Ok [], w)
  ∧ (∀ hs w', (new_workbooks hs w').2 = w').
Proof.
  intros Hup Hlive after created. split; [|split; [|split]].
  - by apply new_workbooks_live.
  - apply keys_filter_diff.
  - rewrite new_workbooks_live by (done || apply current_live).
    f_equal. f_equal. fold after. clear created.
    destruct (filter _ after) as [|h l] eqn:E; [done|].
    assert (Hh : h ∈ filter (λ h, FullName_at w h ∉ keys w after) after)
      by (rewrite E; left).
    apply list_elem_of_filter in Hh as [Hn Hh].
    destruct Hn. by apply keys_elem.
  - apply new_workbooks_pure.
Qed.

Lemma new_workbooks_is_diff_witness :
  new_workbooks [1%nat] (Workbooks_Add 2 Book2 desk_busy).2
  = (Ok [2%nat], (Workbooks_Add 2 Book2 desk_busy).2).
Proof.
  apply (new_workbooks_is_diff [1%nat] (Workbooks_Add 2 Book2 desk_busy).2).
  - reflexivity.
  - constructor; [eexists; reflexivity | constructor].
Defined.

(** ** Journals and frames *)

Lemma journal_grows_refl (P : event → Prop) (w : World) : journal_grows P w w.
Proof. exists []. by rewrite app_nil_r. Qed.

Lemma journal_grows_trans (P : event → Prop) (w1 w2 w3 : World) :
  journal_grows P w1 w2 → journal_grows P w2 w3 → journal_grows P w1 w3.
Proof.
  intros (e1 & H1 & F1) (e2 & H2 & F2). exists (e1 ++ e2).
  split; [by rewrite H2, H1, app_assoc | by apply Forall_app].
Qed.

Lemma journal_grows_weaken (P Q : event → Prop) (w w' : World) :
  (∀ ev, P ev → Q ev) → journal_grows P w w' → journal_grows Q w w'.
Proof.
  intros HPQ (evs & H & F). exists evs. split; [done|].
  eapply Forall_impl; eauto.
Qed.

Lemma journal_grows_record (P : event → Prop) (ev : event) (w w' : World) :
  P ev → journal w' = journal w ++ [ev] → journal_grows P w w'.
Proof. intros HP H. exists [ev]. split; [done | by constructor]. Qed.

Lemma same_host_refl (w : World) : same_host w w.
Proof. by repeat split. Qed.

Lemma same_host_trans (w1 w2 w3 : World) :
  same_host w1 w2 → same_host w2 w3 → same_host w1 w3.
Proof.
  intros (?&?&?&?) (?&?&?&?). repeat split; congruence.
Qed.

(** ** Association lists of workbooks *)

Lemma assoc_drop_book (h k : handle) (l : list (handle * Workbook)) :
  assoc h (drop_book k l) = if decide (h = k) then None else assoc h l.
Proof.
  unfold drop_book. induction l as [|[x b] l IH]; simpl.
  - by case_decide.
  - rewrite filter_cons. simpl. destruct (decide (x ≠ k)) as [Hx|Hx].
    + simpl. rewrite IH. repeat case_decide; congruence.
    + apply dec_stable in Hx. subst x. rewrite IH.
      repeat case_decide; congruence.
Qed.

Lemma assoc_on_book (h k : handle) (f : Workbook → Workbook)
    (l : list (handle * Workbook)) :
  assoc h (on_book k f l) = if decide (h = k) then f <$> assoc h l else assoc h l.
Proof.
  unfold on_book. induction l as [|[x b] l IH]; simpl.
  - by case_decide.
  - rewrite IH. repeat (case_decide; simpl); congruence.
Qed.

Lemma on_book_keys (k : handle) (f : Workbook → Workbook)
    (l : list (handle * Workbook)) :
  map fst (on_book k f l) = map fst l.
Proof.
  unfold on_book. rewrite map_map. apply map_ext. intros [x b]; simpl.
  by case_decide.
Qed.

(** ** close_workbooks *)

Lemma app_set_DisplayAlerts_run (v : Z) (w : World) :
  app_set_DisplayAlerts v w =
    if alive w
    then (Ok tt, record (SetDisplayAlerts v) (with_DisplayAlerts v w))
    else (Raise com_server_gone, w).
Proof.
  unfold app_set_DisplayAlerts. rewrite run_bind, the_app_run.
  by destruct (alive w).
Qed.

Lemma wb_Close_run (wb : handle) (sc : bool) (w : World) :
  wb_Close wb sc w =
    if alive w then
      match assoc wb (Workbooks w) with
      | Some b =>
          match close_fault b with
          | Some hr => (Raise (com_error hr), w)
          | None => (Ok tt, record (Closed wb sc)
                              (with_Workbooks (drop_book wb (Workbooks w)) w))
          end
      | None => (Raise com_object_gone, w)
      end
    else (Raise com_server_gone, w).
Proof.
  unfold wb_Close. rewrite run_bind, the_book_run.
  destruct (alive w); [|done].
  destruct (assoc wb (Workbooks w)) as [b|]; [|done].
  by destruct (close_fault b).
Qed.

Lemma close_round_cases (wb : handle) (w : World) :
  (∃ b, alive w = true ∧ assoc wb (Workbooks w) = Some b ∧ close_fault b = None
        ∧ close_round wb w =
            (Ok tt, mkWorld (procs w) (alive w) (drop_book wb (Workbooks w))
                      (app_Visible w) 1 (StartupPath w) (AddIns w)
                      (journal w ++ [SetDisplayAlerts 0; Closed wb false;
                                     SetDisplayAlerts 1])))
  ∨ (∃ hr, close_round wb w = (Raise (com_error hr), w) ∧ alive w = false)
  ∨ (∃ hr, alive w = true
        ∧ close_round wb w =
            (Raise (com_error hr),
             record (SetDisplayAlerts 0) (with_DisplayAlerts 0 w))).
Proof.
  unfold close_round, com_server_gone, com_object_gone.
  rewrite run_bind, app_set_DisplayAlerts_run.
  destruct (alive w) eqn:Hup; [|right; left; eauto].
  rewrite run_bind, wb_Close_run. simpl. rewrite Hup.
  destruct (assoc wb (Workbooks w)) as [b|] eqn:Hb; [|right; right; eauto].
  destruct (close_fault b) eqn:Hf; [right; right; eauto|].
  left. exists b. repeat split; try done.
  rewrite app_set_DisplayAlerts_run. simpl.
  by rewrite <- !app_assoc.
Qed.

Lemma close_workbooks_cons (wb : handle) (rest : list handle) (w : World) :
  close_workbooks (wb :: rest) w =
    match close_round wb w with
    | (Ok _, w') => close_workbooks rest w'
    | (Raise e, w') => (Raise e, w')
    end.
Proof.
  cbn [close_workbooks]. unfold close_round. rewrite !run_bind.
  destruct (app_set_DisplayAlerts 0 w) as [[[]|e] w1]; [|done].
  rewrite !run_bind.
  destruct (wb_Close wb false w1) as [[[]|e] w2]; [|done].
  rewrite !run_bind.
  by destruct (app_set_DisplayAlerts 1 w2) as [[[]|e] w3].
Qed.

Lemma only_closing_refl (hs : list handle) (w : World) : only_closing hs w w.
Proof.
  split; [apply same_host_refl|]. split; [done|].
  split; [apply journal_grows_refl | by left].
Qed.

Lemma close_workbooks_any (hs : list handle) (w w' : World) (r : result unit) :
  close_workbooks hs w = (r, w') → only_closing hs w w'.
Proof.
  revert w. induction hs as [|wb rest IH]; intros w.
  - intros [= <- <-]. apply only_closing_refl.
  - rewrite close_workbooks_cons.
    destruct (close_round_cases wb w)
      as [(b & Hup & Hb & Hf & ->) | [(e & -> & Hup) | (e & Hup & ->)]].
    + intros Hrest. apply IH in Hrest as ((Hp & Ha & Hs & Hi) & Hv & Hj & Hw).
      simpl in *. split; [by repeat split|]. split; [done|]. split.
      * eapply journal_grows_trans; [|exact Hj].
        exists (close_events wb). split; [done|]. by repeat constructor.
      * intros h. destruct (Hw h) as [Hsame | [Hin Hnone]].
        -- rewrite assoc_drop_book in Hsame. case_decide; subst.
           ++ right. split; [left | done].
           ++ by left.
        -- right. split; [by right | done].
    + intros [= <- <-]. apply only_closing_refl.
    + intros [= <- <-]. split; [by repeat split|]. split; [done|]. split.
      * eapply journal_grows_record; [|done]. done.
      * by left.
Qed.

Lemma close_workbooks_Ok (hs : list handle) (w w' : World) :
  close_workbooks hs w = (Ok tt, w') →
  journal w' = journal w ++ flat_map close_events hs
  ∧ (∀ h, h ∈ hs → assoc h (Workbooks w') = None)
  ∧ (hs ≠ [] → DisplayAlerts w' = 1%Z).
Proof.
  revert w. induction hs as [|wb rest IH]; intros w.
  - intros [= <-]. simpl. rewrite app_nil_r.
    split; [done|]. split; [by intros h ?%elem_of_nil | done].
  - rewrite close_workbooks_cons.
    destruct (close_round_cases wb w)
      as [(b & Hup & Hb & Hf & ->) | [(e & -> & Hup) | (e & Hup & ->)]];
      [|done..].
    intros Hrest. pose proof (close_workbooks_any _ _ _ _ Hrest) as (_ & _ & _ & Hw).
    pose proof Hrest as Hrun.
    apply IH in Hrest as (Hj & Hgone & Hda). simpl in *.
    split; [by rewrite Hj, <- app_assoc|]. split.
    + intros h [->|Hin]%elem_of_cons; [|by apply Hgone].
      destruct (Hw wb) as [Hsame | [_ Hnone]]; [|done].
      rewrite Hsame, assoc_drop_book. by rewrite decide_True.
    + intros _. destruct rest as [|wb' rest']; [|by apply Hda].
      by injection Hrun as <-.
Qed.

(** C10.  Whatever the outcome, [close_workbooks] issues no other calls
    than switching [DisplayAlerts] and [Close(SaveChanges=False)].  When
    it returns normally it has closed every workbook it was given, each
    between [DisplayAlerts = 0] and [DisplayAlerts = 1], and for a
    non-empty collection [DisplayAlerts] ends as 1 whatever it was
    before. *)
Theorem close_workbooks_no_save_alerts_on (workbooks : list handle)
    (w w' : World) (r : result unit) :
  close_workbooks workbooks w = (r, w') →
  journal_grows closing_event w w'
  ∧ (r = Ok tt →
       journal w' = journal w ++ flat_map close_events workbooks
       ∧ (∀ wb, wb ∈ workbooks → assoc wb (Workbooks w') = None)
       ∧ (workbooks ≠ [] → DisplayAlerts w' = 1%Z)).
Proof.
  intros Hrun. split.
  - by apply close_workbooks_any in Hrun as (_ & _ & Hj & _).
  - intros ->. by apply close_workbooks_Ok.
Qed.

Lemma close_workbooks_no_save_alerts_on_witness :
  DisplayAlerts (close_workbooks [2%nat; 1%nat] desk_two_muted).2 = 1%Z.
Proof.
  refine (proj2 (proj2 (proj2 (close_workbooks_no_save_alerts_on
            [2%nat; 1%nat] desk_two_muted _ _ (surjective_pairing _)) _)) _).
  - vm_compute. reflexivity.
  - discriminate.
Defined.

(** ** kill_all_instances_of_excel *)

Lemma kill_round_run (proc : Proc) (w : World) :
  try_except
    (Process_name proc ≫= λ n : string,
     if String.eqb n EXCEL_PROCESS_NAME then Process_kill proc else mret tt)
    is_AccessDenied_or_NoSuchProcess (mret tt) w
  = (Ok tt, if killable proc then after_kill proc w else w).
Proof.
  unfold try_except, killable, Process_name, Process_kill.
  rewrite run_bind.
  destruct (proc_name proc) as [n| |]; try done. simpl.
  by destruct (String.eqb n EXCEL_PROCESS_NAME), (proc_kill proc).
Qed.

Lemma kill_loop_run (ps : list Proc) (w : World) :
  kill_loop ps w = (Ok tt, kill_sweep ps w).
Proof.
  revert w. induction ps as [|proc rest IH]; intros w; [done|].
  cbn [kill_loop]. rewrite run_bind, kill_round_run. apply IH.
Qed.

Lemma kill_all_run (w : World) :
  kill_all_instances_of_excel false w = (Ok tt, kill_sweep (procs w) w).
Proof.
  unfold kill_all_instances_of_excel. rewrite run_bind, run_ret.
  unfold process_iter. rewrite run_bind. apply kill_loop_run.
Qed.

Lemma kill_sweep_facts (ps : list Proc) (w : World) :
  let w' := kill_sweep ps w in
  procs w' = filter (λ q, pid q ∉ map pid (filter (λ p, killable p = true) ps)) (procs w)
  ∧ journal w' = journal w ++ map (λ p, Killed (pid p)) (filter (λ p, killable p = true) ps)
  ∧ (Exists (λ p, killable p = true ∧ serves_com p = true) ps →
       alive w' = false ∧ Workbooks w' = [])
  ∧ (alive w = false → alive w' = false)
  ∧ (Workbooks w = [] → Workbooks w' = [])
  ∧ StartupPath w' = StartupPath w ∧ AddIns w' = AddIns w
  ∧ app_Visible w' = app_Visible w ∧ DisplayAlerts w' = DisplayAlerts w.
Proof.
  revert w. induction ps as [|p rest IH]; intros w; simpl.
  - rewrite app_nil_r. split; [|split; [done|split; [|done]]].
    + symmetry. apply filter_all. intros x _. apply not_elem_of_nil.
    + by intros ?%Exists_nil.
  - rewrite filter_cons. destruct (killable p) eqn:Hk.
    + rewrite decide_True by done.
      specialize (IH (after_kill p w)).
      destruct IH as (Hp & Hj & Hx & Hd & Hb & Hs & Ha & Hv & Hda).
      fold (kill_sweep rest (after_kill p w)).
      split; [|split; [|split; [|split; [|split]]]].
      * rewrite Hp. unfold after_kill. destruct (serves_com p); simpl;
          rewrite list_filter_filter; apply list_filter_iff; intros q;
          rewrite not_elem_of_cons; tauto.
      * rewrite Hj. unfold after_kill.
        destruct (serves_com p); simpl; by rewrite <- app_assoc.
      * intros [[_ Hserve]|Hrest]%Exists_cons; [|by apply Hx].
        split; [apply Hd | apply Hb]; unfold after_kill; by rewrite Hserve.
      * intros Hdead. apply Hd. unfold after_kill.
        by destruct (serves_com p).
      * intros Hnone. apply Hb. unfold after_kill.
        by destruct (serves_com p).
      * rewrite Hs, Ha, Hv, Hda. unfold after_kill.
        by destruct (serves_com p).
    + rewrite decide_False by (by rewrite not_true_iff_false).
      fold (kill_sweep rest w).
      destruct (IH w) as (Hp & Hj & Hx & Hrest).
      split; [done|]. split; [done|]. split; [|done].
      intros [[Hk' _]|Hr]%Exists_cons; [congruence | by apply Hx].
Qed.

(** ** see_excel *)

Lemma on_window_run (wb : handle) (i : nat) (f : Window → Window) (ev : event)
    (w : World) (b : Workbook) :
  alive w = true → assoc wb (Workbooks w) = Some b → (i < length (Windows b))%nat →
  on_window wb i f ev w
  = (Ok tt, record ev
      (with_Workbooks
         (on_book wb (λ b, with_Windows (alter f i (Windows b)) b) (Workbooks w)) w)).
Proof.
  intros Hup Hb Hi. unfold on_window. rewrite run_bind, the_book_run, Hup, Hb.
  apply lookup_lt_is_Some_2 in Hi as [win Hwin]. by rewrite Hwin.
Qed.

Lemma paint_lookup (idx : list nat) (st : Z) (ws : list Window) (i : nat) :
  paint idx st ws !! i
  = if decide (i ∈ idx) then shown_window st <$> ws !! i else ws !! i.
Proof.
  revert ws. induction idx as [|j idx IH]; intros ws.
  - case_decide as Hin; [by apply elem_of_nil in Hin | done].
  - cbn [paint foldl]. fold (paint idx st (alter (shown_window st) j ws)).
    rewrite IH. destruct (decide (i = j)) as [->|Hne].
    + rewrite list_lookup_alter_eq, (decide_True (P := j ∈ j :: idx)) by left.
      case_decide; [|done]. by destruct (ws !! j).
    + rewrite list_lookup_alter_ne by done.
      case_decide as Hin.
      * rewrite decide_True; [done | by right].
      * rewrite decide_False; [done|]. by intros [?|?]%elem_of_cons.
Qed.

Lemma paint_all (st : Z) (ws : list Window) :
  paint (seq 0 (length ws)) st ws = shown_window st <$> ws.
Proof.
  apply list_eq. intros i. rewrite paint_lookup, list_lookup_fmap.
  case_decide as Hin; [done|].
  rewrite elem_of_seq in Hin.
  rewrite (lookup_ge_None_2 ws i) by lia. done.
Qed.

Lemma see_windows_run (wb : handle) (st : Z) (idx : list nat) (w : World)
    (b : Workbook) :
  alive w = true → assoc wb (Workbooks w) = Some b →
  Forall (λ i, (i < length (Windows b))%nat) idx →
  ∃ w', see_windows wb idx st w = (Ok tt, w')
    ∧ same_host w w'
    ∧ app_Visible w' = app_Visible w
    ∧ DisplayAlerts w' = DisplayAlerts w
    ∧ journal_grows (reveal_with st) w w'
    ∧ map fst (Workbooks w') = map fst (Workbooks w)
    ∧ (∀ h, h ≠ wb → assoc h (Workbooks w') = assoc h (Workbooks w))
    ∧ assoc wb (Workbooks w') = Some (with_Windows (paint idx st (Windows b)) b).
Proof.
  intros Hup Hb Hidx. revert w b Hup Hb Hidx.
  induction idx as [|i idx IH]; intros w b Hup Hb Hidx.
  - exists w. simpl. split; [done|]. split; [apply same_host_refl|].
    split; [done|]. split; [done|]. split; [apply journal_grows_refl|].
    split; [done|]. split; [done|]. rewrite Hb. by destruct b.
  - apply Forall_cons in Hidx as [Hi Hidx].
    cbn [see_windows]. unfold window_set_Visible, window_set_WindowState.
    rewrite run_bind, (on_window_run _ _ _ _ _ b) by done.
    set (w1 := record _ _).
    set (b1 := with_Windows (alter (λ win, mkWindow true (WindowState win)) i (Windows b)) b).
    assert (Hb1 : assoc wb (Workbooks w1) = Some b1).
    { subst w1. simpl. rewrite assoc_on_book, decide_True, Hb by done. done. }
    rewrite run_bind, (on_window_run _ _ _ _ _ b1);
      [|done|done|by (subst b1; simpl; rewrite length_alter)].
    set (w2 := record _ _).
    set (b2 := with_Windows (alter (shown_window st) i (Windows b)) b).
    assert (Hb2 : assoc wb (Workbooks w2) = Some b2).
    { subst w2. cbn [record with_Workbooks Workbooks].
      rewrite assoc_on_book, decide_True, Hb1 by done.
      subst b1 b2. simpl. unfold with_Windows. simpl.
      f_equal. f_equal. by rewrite list_alter_alter_eq. }
    destruct (IH w2 b2) as (w' & Hrun & Hh & Hv & Hd & Hj & Hk & Ho & Hw);
      [done | done | by (subst b2; simpl; rewrite length_alter) |].
    exists w'. split; [done|].
    split; [by eapply same_host_trans; [|exact Hh]|].
    split; [by rewrite Hv|]. split; [by rewrite Hd|].
    split.
    { eapply journal_grows_trans; [|exact Hj].
      exists [SetWindowVisible wb i true; SetWindowState wb i st].
      split; [by subst w2 w1; simpl; rewrite <- app_assoc | by repeat constructor]. }
    split.
    { rewrite Hk. subst w2 w1. simpl. by rewrite !on_book_keys. }
    split.
    { intros h Hne. rewrite Ho by done. subst w2 w1. simpl.
      by rewrite !assoc_on_book, !decide_False by done. }
    rewrite Hw. by subst b2.
Qed.

Lemma wb_Application_set_Visible_run (wb : handle) (v : bool) (w : World) :
  alive w = true → live w wb →
  wb_Application_set_Visible wb v w
  = (Ok tt, record (SetAppVisible v) (with_app_Visible v w)).
Proof.
  intros Hup [b Hb]. unfold wb_Application_set_Visible.
  by rewrite run_bind, the_book_run, Hup, Hb.
Qed.

Lemma wb_Application_StartupPath_run (wb : handle) (w : World) :
  alive w = true → live w wb →
  wb_Application_StartupPath wb w = (Ok (StartupPath w), w).
Proof.
  intros Hup [b Hb]. unfold wb_Application_StartupPath.
  by rewrite run_bind, the_book_run, Hup, Hb.
Qed.

Lemma wb_Windows_run (wb : handle) (w : World) (b : Workbook) :
  alive w = true → assoc wb (Workbooks w) = Some b →
  wb_Windows wb w = (Ok (seq 0 (length (Windows b))), w).
Proof.
  intros Hup Hb. unfold wb_Windows.
  by rewrite run_bind, the_book_run, Hup, Hb.
Qed.

Lemma shown_shown (st : Z) (b : Workbook) : shown st (shown st b) = shown st b.
Proof.
  unfold shown, with_Windows. simpl. f_equal.
  rewrite <- list_fmap_compose. by apply list_fmap_ext.
Qed.

Lemma live_keys (w w' : World) (h : handle) :
  map fst (Workbooks w') = map fst (Workbooks w) → live w h → live w' h.
Proof. unfold live. rewrite !assoc_Some_fst. by intros ->. Qed.

(** One round of the loop of lines 114-124 on a live workbook. *)
Lemma see_round_run (wb : handle) (st : Z) (w : World) (b : Workbook) :
  alive w = true → assoc wb (Workbooks w) = Some b →
  ∃ w',
    (wb_Application_set_Visible wb true ;;
     wb_Application_StartupPath wb ≫= λ startup : string,
     wb_FullName wb ≫= λ full_name : string,
     if str_in startup full_name
     then mret tt
     else wb_Windows wb ≫= λ windows, see_windows wb windows st) w = (Ok tt, w')
    ∧ same_host w w'
    ∧ app_Visible w' = true
    ∧ DisplayAlerts w' = DisplayAlerts w
    ∧ journal_grows (reveal_with st) w w'
    ∧ map fst (Workbooks w') = map fst (Workbooks w)
    ∧ (∀ h, h ≠ wb → assoc h (Workbooks w') = assoc h (Workbooks w))
    ∧ assoc wb (Workbooks w')
      = Some (if passed_over w wb then b else shown st b).
Proof.
  intros Hup Hb. assert (Hlive : live w wb) by (by exists b).
  rewrite run_bind, wb_Application_set_Visible_run by done.
  set (w1 := record _ _).
  assert (Hup1 : alive w1 = true) by done.
  assert (Hb1 : assoc wb (Workbooks w1) = Some b) by done.
  assert (Hlive1 : live w1 wb) by (by exists b).
  assert (Hj1 : journal_grows (reveal_with st) w w1).
  { eapply journal_grows_record; [|done]. done. }
  rewrite run_bind, wb_Application_StartupPath_run by done.
  rewrite run_bind, wb_FullName_live by done.
  unfold passed_over.
  replace (FullName_at w1 wb) with (FullName_at w wb) by done.
  replace (StartupPath w1) with (StartupPath w) by done.
  destruct (str_in (StartupPath w) (FullName_at w wb)).
  - exists w1. split; [done|]. split; [by repeat split|].
    repeat (split; [done|]). done.
  - rewrite run_bind, (wb_Windows_run _ _ b) by done.
    destruct (see_windows_run wb st (seq 0 (length (Windows b))) w1 b)
      as (w' & Hrun & Hh & Hv & Hd & Hj & Hk & Ho & Hw); [done | done | |].
    { apply Forall_forall. intros i Hi. apply elem_of_seq in Hi. lia. }
    exists w'. split; [done|].
    split; [by eapply same_host_trans; [|exact Hh]; repeat split|].
    split; [by rewrite Hv|]. split; [by rewrite Hd|].
    split; [by eapply journal_grows_trans|].
    split; [by rewrite Hk|]. split; [by intros h Hne; rewrite Ho|].
    rewrite Hw, paint_all. done.
Qed.

Lemma see_excel_run (hs : list handle) (st : Z) (w : World) :
  alive w = true → Forall (live w) hs →
  ∃ w', see_excel hs st w = (Ok tt, w')
    ∧ same_host w w'
    ∧ app_Visible w' = (if hs is [] then app_Visible w else true)
    ∧ DisplayAlerts w' = DisplayAlerts w
    ∧ journal_grows (reveal_with st) w w'
    ∧ map fst (Workbooks w') = map fst (Workbooks w)
    ∧ (∀ h, assoc h (Workbooks w')
            = if decide (h ∈ hs ∧ passed_over w h = false)
              then shown st <$> assoc h (Workbooks w)
              else assoc h (Workbooks w)).
Proof.
  intros Hup Hlive. revert w Hup Hlive.
  induction hs as [|wb rest IH]; intros w Hup Hlive.
  - exists w. split; [done|]. split; [apply same_host_refl|].
    split; [done|]. split; [done|]. split; [apply journal_grows_refl|].
    split; [done|]. intros h. rewrite decide_False; [done|].
    by intros [?%elem_of_nil _].
  - apply Forall_cons in Hlive as [[b Hb] Hrest].
    destruct (see_round_run wb st w b)
      as (w1 & Hrun & Hh & Hv & Hd & Hj & Hk & Ho & Hw); [done | done|].
    assert (Hup1 : alive w1 = true) by (destruct Hh as (_ & -> & _); done).
    assert (Hrest1 : Forall (live w1) rest).
    { eapply Forall_impl; [exact Hrest|]. intros h. by apply live_keys. }
    destruct (IH w1 Hup1 Hrest1)
      as (w' & Hrun' & Hh' & Hv' & Hd' & Hj' & Hk' & Hw').
    exists w'. split.
    { cbn [see_excel]. rewrite !run_bind in Hrun. rewrite !run_bind.
      destruct (wb_Application_set_Visible wb true w) as [[[]|e] wa]; [|done].
      rewrite !run_bind in Hrun. rewrite !run_bind.
      destruct (wb_Application_StartupPath wb wa) as [[sp|e] wb']; [|done].
      rewrite !run_bind in Hrun. rewrite !run_bind.
      destruct (wb_FullName wb wb') as [[fn|e] wc]; [|done].
      rewrite run_bind. rewrite Hrun. exact Hrun'. }
    split; [by eapply same_host_trans|].
    split; [rewrite Hv'; by destruct rest|].
    split; [by rewrite Hd', Hd|].
    split; [by eapply journal_grows_trans|].
    split; [by rewrite Hk', Hk|].
    intros h. rewrite Hw'.
    assert (Hpo : passed_over w1 h = passed_over w h).
    { unfold passed_over, FullName_at.
      destruct Hh as (_ & _ & -> & _).
      destruct (decide (h = wb)) as [->|Hne]; [|by rewrite Ho].
      rewrite Hw, Hb. by destruct (passed_over w wb). }
    rewrite Hpo.
    destruct (decide (h = wb)) as [->|Hne].
    + rewrite Hw, Hb. destruct (passed_over w wb) eqn:Hp.
      * rewrite !decide_False; [done | by intros [_ ?] | by intros [_ ?]].
      * rewrite (decide_True (P := wb ∈ wb :: rest ∧ false = false))
          by (split; [left | done]).
        case_decide; simpl; by rewrite ?shown_shown.
    + rewrite Ho by done.
      apply (decide_ext _ _). rewrite elem_of_cons.
      split; [intros [? ?]; split; [by right | done] | by intros [[?|?] ?]].
Qed.

(** C5.  [see_excel] is meant to make every window of every workbook
    visible except for the workbooks in the startup folder (docstring and
    comment of lines 106 and 117-118).  The workbook [Plan] is saved in
    [C:\XLSTART2], which is not under the startup folder [C:\XLSTART];
    [see_excel] nevertheless passes over it and leaves its window hidden,
    because line 119 tests whether the startup path occurs anywhere inside
    the full name. *)
Lemma see_excel_passes_over_sibling_folder :
  lies_under (StartupPath desk_sibling) (FullName Plan) = false
  ∧ str_in (StartupPath desk_sibling) (FullName Plan) = true
  ∧ ∃ w', see_excel [3%nat] (-4137) desk_sibling = (Ok tt, w')
          ∧ app_Visible w' = true
          ∧ assoc 3%nat (Workbooks w') = Some Plan
          ∧ Windows Plan = [mkWindow false (-4143)].
Proof.
  split; [reflexivity|]. split; [reflexivity|]. eexists. repeat split.
Qed.

(** What [see_excel] does in general.  On workbooks that are open it
    returns normally; it makes the application visible as soon as there is
    one workbook; every workbook of the collection whose [FullName] does
    not contain the application's [StartupPath] as a substring has all its
    windows visible and in the given window state afterwards; every
    workbook whose [FullName] contains it, and every workbook outside the
    collection, is as before. *)
Lemma see_excel_reveals (workbooks : list handle) (window_state : Z) (w : World) :
  alive w = true →
  Forall (live w) workbooks →
  ∃ w', see_excel workbooks window_state w = (Ok tt, w')
    ∧ (workbooks ≠ [] → app_Visible w' = true)
    ∧ journal_grows (reveal_with window_state) w w'
    ∧ (∀ wb, wb ∈ workbooks →
         ∃ b, assoc wb (Workbooks w) = Some b
              ∧ assoc wb (Workbooks w')
                = Some (if str_in (StartupPath w) (FullName b) then b
                        else shown window_state b))
    ∧ (∀ h, h ∉ workbooks → assoc h (Workbooks w') = assoc h (Workbooks w)).
Proof.
  intros Hup Hlive.
  destruct (see_excel_run workbooks window_state w Hup Hlive)
    as (w' & Hrun & Hh & Hv & Hd & Hj & Hk & Hw).
  exists w'. split; [done|]. split; [by destruct workbooks|]. split; [done|].
  split.
  - intros wb Hin. rewrite Forall_forall in Hlive.
    destruct (Hlive wb Hin) as [b Hb]. exists b. split; [done|].
    rewrite Hw, Hb. unfold passed_over, FullName_at. rewrite Hb.
    destruct (str_in (StartupPath w) (FullName b)).
    + rewrite decide_False; [done | by intros [_ ?]].
    + by rewrite decide_True.
  - intros h Hn. rewrite Hw, decide_False; [done | by intros [? _]].
Qed.

Lemma see_excel_reveals_on_two_books :
  ∃ w', see_excel [2%nat] (-4137) desk_two_muted = (Ok tt, w')
        ∧ assoc 2%nat (Workbooks w') = Some (shown (-4137) Book2)
        ∧ assoc 1%nat (Workbooks w') = Some Book1.
Proof.
  destruct (see_excel_reveals [2%nat] (-4137) desk_two_muted)
    as (w' & Hrun & _ & _ & Hin & Hout).
  - reflexivity.
  - constructor; [eexists; reflexivity | constructor].
  - exists w'. split; [done|]. split.
    + destruct (Hin 2%nat) as (b & Hb & ->); [left|].
      injection Hb as <-. reflexivity.
    + rewrite Hout; [reflexivity|]. by intros [=]%list_elem_of_singleton.
Defined.

(** ** The add-in loop *)

Lemma the_addin_run (i : nat) (w : World) (a : AddIn) :
  alive w = true → AddIns w !! i = Some a → the_addin i w = (Ok a, w).
Proof.
  intros Hup Ha. unfold the_addin. rewrite run_bind, the_app_run, Hup.
  rewrite run_bind. unfold gets. by rewrite Ha.
Qed.

Lemma reload_addins_run (idx : list nat) (w : World) :
  alive w = true →
  Forall (λ i, (i < length (AddIns w))%nat) idx →
  reload_addins idx w
  = (Ok tt, mkWorld (procs w) (alive w) (Workbooks w) (app_Visible w)
              (DisplayAlerts w) (StartupPath w) (AddIns w)
              (journal w ++ flat_map (toggle_events (AddIns w)) idx)).
Proof.
  intros Hup Hidx. revert w Hup Hidx.
  induction idx as [|i idx IH]; intros w Hup Hidx.
  - simpl. rewrite app_nil_r. by destruct w.
  - apply Forall_cons in Hidx as [Hi Hidx].
    apply lookup_lt_is_Some_2 in Hi as [[inst] Ha].
    cbn [reload_addins flat_map]. unfold toggle_events at 1. rewrite Ha.
    unfold AddIn_Installed.
    rewrite run_bind, run_bind, (the_addin_run _ _ _ Hup Ha), run_ret.
    cbn [Installed]. destruct inst.
    + unfold AddIn_set_Installed.
      rewrite !run_bind, (the_addin_run _ _ _ Hup Ha).
      unfold modify at 1. set (w1 := record _ _).
      rewrite run_bind, (the_addin_run i w1 (mkAddIn false));
        [|done|by (subst w1; simpl; apply list_lookup_insert_eq; eapply lookup_lt_Some)].
      unfold modify at 1. set (w2 := record _ _).
      assert (Hadd : AddIns w2 = AddIns w).
      { subst w2 w1. simpl. rewrite list_insert_insert_eq.
        by apply list_insert_id. }
      rewrite IH; [|done|by rewrite Hadd].
      rewrite Hadd. subst w2 w1. simpl. by rewrite <- !app_assoc.
    + rewrite run_bind, run_ret. rewrite IH by done. done.
Qed.

(** ** application *)

Lemma finally_tail_run (err_msg : option pyarg) (w : World) :
  (CoUninitialize ;;
   read_local "err_msg" err_msg ≫= λ v,
   if truthy v then raise (ExcelError v) else mret tt) w
  = (report_of err_msg, record CoUninitialized w).
Proof.
  rewrite run_bind. unfold CoUninitialize, modify. rewrite run_bind.
  destruct err_msg as [v|]; [|done]. simpl. by destruct (truthy v).
Qed.

Lemma application_finally_cleanup (kill_after maximize include_addins : bool)
    (onset created : list handle) (err_msg : option pyarg) (w : World) :
  new_workbooks onset w = (Ok created, w) →
  kill_after = true ∨ (∃ v, err_msg = Some v ∧ truthy v = true) →
  application_finally kill_after maximize include_addins onset err_msg w
  = match cleanup_suite onset created w with
    | (Ok _, w3) => (report_of err_msg, record CoUninitialized w3)
    | (Raise e, w3) => (Raise e, w3)
    end.
Proof.
  intros Hnew Hpath. unfold application_finally.
  rewrite run_bind, Hnew, run_bind.
  assert (Hsel : (if kill_after then mret true
                  else read_local "err_msg" err_msg ≫= λ v, mret (truthy v)) w
                 = (Ok true, w)).
  { destruct Hpath as [->|(v & -> & Hv)]; [done|].
    destruct kill_after; [done|]. simpl. rewrite run_bind. simpl. by rewrite Hv. }
  rewrite Hsel, run_bind. fold (cleanup_suite onset created).
  destruct (cleanup_suite onset created w) as [[[]|e] w3]; [|done].
  apply finally_tail_run.
Qed.

Lemma application_finally_reveal (maximize include_addins : bool)
    (onset created : list handle) (w : World) :
  new_workbooks onset w = (Ok created, w) →
  application_finally false maximize include_addins onset (Some (PyStr "")) w
  = match reveal_suite maximize include_addins created w with
    | (Ok _, w3) => (Ok tt, record CoUninitialized w3)
    | (Raise e, w3) => (Raise e, w3)
    end.
Proof.
  intros Hnew. unfold application_finally.
  rewrite run_bind, Hnew, run_bind. simpl read_local.
  rewrite run_bind, run_ret, run_ret. simpl truthy. cbv iota.
  rewrite run_bind. fold (reveal_suite maximize include_addins created).
  destruct (reveal_suite maximize include_addins created w) as [[[]|e] w3]; [|done].
  exact (finally_tail_run (Some (PyStr "")) w3).
Qed.

Lemma application_finally_unbound (maximize include_addins : bool)
    (onset : list handle) (w : World) :
  ∃ e, application_finally false maximize include_addins onset None w
       = (Raise e, w).
Proof.
  unfold application_finally. rewrite run_bind.
  pose proof (new_workbooks_pure onset w) as Hp.
  destruct (new_workbooks onset w) as [[created|e] w']; simpl in Hp; subst w';
    eauto.
Qed.

Lemma application_finally_never_Ok_unbound (kill_after maximize include_addins : bool)
    (onset : list handle) (w w' : World) (u : unit) :
  application_finally kill_after maximize include_addins onset None w ≠ (Ok u, w').
Proof.
  destruct kill_after.
  - unfold application_finally. rewrite run_bind.
    destruct (new_workbooks onset w) as [[created|e] w1]; [|done].
    rewrite run_bind, run_ret, run_bind. fold (cleanup_suite onset created).
    destruct (cleanup_suite onset created w1) as [[[]|e] w3]; [|done].
    by rewrite finally_tail_run.
  - destruct (application_finally_unbound maximize include_addins onset w)
      as [e ->]. done.
Qed.

Section Session.
Variables kill_after maximize include_addins : bool.
Variable body : M unit.
Variables w0 w1 w2 : World.
Variable onset : list handle.
Variable outcome : result unit.
Hypothesis Henter : application_enter w0 = (Ok onset, w1).
Hypothesis Hbody : body w1 = (outcome, w2).

Lemma application_run :
  application kill_after maximize include_addins body w0
  = application_finally kill_after maximize include_addins onset
      (err_msg_of outcome) w2.
Proof using Henter Hbody.
  unfold application. rewrite Henter, Hbody.
  destruct (application_finally _ _ _ _ _ w2) as [[[]|e] w3] eqn:Hfin; [|done].
  destruct outcome as [[]|e]; [done|]. simpl in *.
  destruct (is_Exception e); [done|].
  by apply application_finally_never_Ok_unbound in Hfin.
Qed.
End Session.

Lemma close_workbooks_raises (hs : list handle) (w w' : World) (e : exn) :
  close_workbooks hs w = (Raise e, w') → ∃ hr, e = com_error hr.
Proof.
  revert w. induction hs as [|wb rest IH]; intros w; [done|].
  rewrite close_workbooks_cons.
  destruct (close_round_cases wb w)
    as [(b & Hup & Hb & Hf & ->) | [(hr & -> & Hup) | (hr & Hup & ->)]].
  - apply IH.
  - intros [= <- _]. eauto.
  - intros [= <- _]. eauto.
Qed.

Lemma new_workbooks_Ok_inv (onset created : list handle) (w w' : World) :
  new_workbooks onset w = (Ok created, w') →
  w' = w
  ∧ alive w = true
  ∧ Forall (live w) onset
  ∧ created = filter (λ h, FullName_at w h ∉ keys w onset) (map fst (Workbooks w))
  ∧ Forall (live w) created
  ∧ (∀ h, h ∈ onset → h ∉ created).
Proof.
  intros Hnew.
  pose proof (new_workbooks_pure onset w) as Hpure. rewrite Hnew in Hpure.
  simpl in Hpure. subst w'.
  assert (Hup : alive w = true).
  { unfold new_workbooks in Hnew. rewrite run_bind in Hnew.
    pose proof (FullNames_pure onset w) as Hp.
    destruct (FullNames onset w) as [[s|e] wa]; [|done]. simpl in Hp. subst wa.
    rewrite run_bind in Hnew. unfold workbooks_currently_open in Hnew.
    rewrite app_Workbooks_run in Hnew. by destruct (alive w). }
  assert (Hlive : Forall (live w) onset).
  { unfold new_workbooks in Hnew. rewrite run_bind in Hnew.
    destruct (FullNames onset w) as [[s|e] wa] eqn:Hf; [|done].
    by eapply FullNames_Ok_inv. }
  rewrite new_workbooks_live in Hnew by done. injection Hnew as Hnew.
  split; [done|]. split; [done|]. split; [done|]. split; [done|]. split.
  - subst created. apply Forall_forall. intros h [_ Hh]%list_elem_of_filter.
    by apply assoc_Some_fst.
  - intros h Hin. subst created. intros [Hn _]%list_elem_of_filter.
    apply Hn. by apply keys_elem.
Qed.

Lemma cleanup_path_premise (kill_after : bool) (outcome : result unit) :
  cleanup_path kill_after outcome = true →
  kill_after = true
  ∨ (∃ v, err_msg_of outcome = Some v ∧ truthy v = true).
Proof.
  unfold cleanup_path. destruct kill_after; [by left|]. simpl.
  destruct (err_msg_of outcome) as [v|]; [|done]. intros Hv. right. by exists v.
Qed.

(** ** The three ways a session ends

    Throughout, [w0] is the world in which [application] is entered,
    [onset] the snapshot taken on entry, [w2] the world in which the body
    of the [with] statement ends, and [created] what [new_workbooks] finds
    then. *)
Section Reconciliation.
Variables kill_after maximize include_addins : bool.
Variable body : M unit.
Variables w0 w1 w2 : World.
Variables onset created : list handle.
Variable outcome : result unit.
Hypothesis Henter : application_enter w0 = (Ok onset, w1).
Hypothesis Hbody : body w1 = (outcome, w2).
Hypothesis Hnew : new_workbooks onset w2 = (Ok created, w2).

Let session : result unit * World :=
  application kill_after maximize include_addins body w0.

Lemma session_closes :
  cleanup_path kill_after outcome = true →
  onset ≠ [] →
  ∃ rc w3,
    close_workbooks created w2 = (rc, w3)
    ∧ only_closing created w2 w3
    ∧ session = match rc with
                | Ok _ => (report_of (err_msg_of outcome),
                           record CoUninitialized w3)
                | Raise e => (Raise e, w3)
                end
    ∧ (∀ e, rc = Raise e → ∃ hr, e = com_error hr)
    ∧ (rc = Ok tt → ∀ h, h ∈ created → assoc h (Workbooks w3) = None).
Proof using Henter Hbody Hnew.
  intros Hpath Hne. subst session.
  rewrite (application_run _ _ _ _ _ _ _ _ _ Henter Hbody).
  rewrite (application_finally_cleanup _ _ _ _ created) by
    (done || by apply cleanup_path_premise).
  unfold cleanup_suite. rewrite bool_decide_true by done.
  destruct (close_workbooks created w2) as [rc w3] eqn:Hc.
  exists rc, w3. split; [done|]. split; [by eapply close_workbooks_any|].
  split; [by destruct rc as [[]|]|]. split.
  - intros e ->. by eapply close_workbooks_raises.
  - intros ->. by apply close_workbooks_Ok in Hc as (_ & Hgone & _).
Qed.

Lemma session_kills :
  cleanup_path kill_after outcome = true →
  onset = [] →
  session = (report_of (err_msg_of outcome),
             record CoUninitialized (kill_sweep (procs w2) w2)).
Proof using Henter Hbody Hnew.
  intros Hpath Hempty. subst session.
  rewrite (application_run _ _ _ _ _ _ _ _ _ Henter Hbody).
  rewrite (application_finally_cleanup _ _ _ _ created) by
    (done || by apply cleanup_path_premise).
  unfold cleanup_suite. rewrite bool_decide_false by (by intros ?).
  by rewrite kill_all_run.
Qed.

Lemma session_reveals :
  kill_after = false →
  outcome = Ok tt →
  let window_state := if maximize then (-4137)%Z else (-4140)%Z in
  let toggles :=
    if include_addins
    then flat_map (toggle_events (AddIns w2)) (seq 0 (length (AddIns w2)))
    else [] in
  ∃ w3 evs,
    session = (Ok tt, record CoUninitialized w3)
    ∧ reveal_suite maximize include_addins created w2 = (Ok tt, w3)
    ∧ same_host w2 w3
    ∧ DisplayAlerts w3 = DisplayAlerts w2
    ∧ journal w3 = journal w2 ++ toggles ++ evs
    ∧ Forall (reveal_with window_state) evs
    ∧ (∀ h, assoc h (Workbooks w3)
            = if decide (h ∈ created ∧ passed_over w2 h = false)
              then shown window_state <$> assoc h (Workbooks w2)
              else assoc h (Workbooks w2)).
Proof using Henter Hbody Hnew.
  intros -> -> window_state toggles. subst session.
  rewrite (application_run _ _ _ _ _ _ _ _ _ Henter Hbody).
  simpl err_msg_of. rewrite (application_finally_reveal _ _ _ created) by done.
  destruct (new_workbooks_Ok_inv _ _ _ _ Hnew) as (_ & Hup & _ & _ & Hlive & _).
  set (wa := mkWorld (procs w2) (alive w2) (Workbooks w2) (app_Visible w2)
               (DisplayAlerts w2) (StartupPath w2) (AddIns w2)
               (journal w2 ++ toggles)).
  assert (Hadd : (if include_addins then app_AddIns ≫= reload_addins
                  else mret tt) w2 = (Ok tt, wa)).
  { subst wa toggles. destruct include_addins.
    - rewrite run_bind. unfold app_AddIns.
      rewrite run_bind, the_app_run, Hup. unfold gets.
      rewrite reload_addins_run; [by rewrite Hup | done |].
      apply Forall_forall. intros i Hi%elem_of_seq. lia.
    - rewrite run_ret, app_nil_r. by destruct w2. }
  destruct (see_excel_run created window_state wa)
    as (w3 & Hrun & Hh & Hv & Hd & (evs & Hj & Hevs) & Hk & Hw); [done | done |].
  exists w3, evs.
  assert (Hsuite : reveal_suite maximize include_addins created w2 = (Ok tt, w3)).
  { unfold reveal_suite. rewrite run_bind, Hadd.
    subst window_state. by destruct maximize. }
  rewrite Hsuite. split; [done|]. split; [done|]. split; [done|].
  split; [done|]. split; [by rewrite Hj, app_assoc|]. split; [done|].
  exact Hw.
Qed.
End Reconciliation.

Lemma enter_onset_nonempty (w0 w1 : World) (onset : list handle) :
  application_enter w0 = (Ok onset, w1) →
  onset ≠ [] → (is_excel_open w0).1 = Ok true.
Proof.
  unfold application_enter. rewrite run_bind.
  destruct (is_excel_open w0) as [[[|]|e] wa]; [done| |done].
  rewrite !run_bind. unfold CoInitialize, modify.
  rewrite run_bind. destruct (Dispatch _) as [[[]|e] wb]; [|done].
  rewrite run_ret. by intros [= <- _].
Qed.

Lemma kill_sweep_removes (ps : list Proc) (w : World) (p : Proc) :
  p ∈ ps → killable p = true → p ∉ procs (kill_sweep ps w).
Proof.
  intros Hin Hk. destruct (kill_sweep_facts ps w) as (-> & _).
  intros [Hn _]%list_elem_of_filter. apply Hn.
  apply list_elem_of_fmap. exists p. split; [done|].
  by apply list_elem_of_filter.
Qed.

(** C1, counterexample.  The host is running, with no workbook open, when
    the session starts; the body adds a workbook and returns; with
    [kill_after] set the host process is killed all the same. *)
Lemma running_host_without_workbooks_is_killed :
  is_excel_open desk_idle = (Ok true, desk_idle)
  ∧ ∃ wf, application true true false (Workbooks_Add 2 Book2) desk_idle = (Ok tt, wf)
          ∧ alive wf = false
          ∧ procs wf = [explorer_1]
          ∧ journal wf = [CoInitialized; Killed 7; CoUninitialized].
Proof. split; [reflexivity|]. eexists. split; [vm_compute; reflexivity|]. done. Qed.

(** C1, as the code has it.  When line 239 chooses the clean-up (that is,
    [kill_after] is set or the body raised an [Exception] whose object is
    truthy) and the created workbooks have been determined, line 242
    selects by the snapshot taken on entry, not by whether the host was
    running.  If the snapshot is not empty (which requires that the host
    was running), only created workbooks are closed: the processes, the
    application and every workbook of the snapshot stay as the body left
    them, and when the clean-up ran to its end (no call of it raised a
    [com_error]) every created workbook is closed.  If the snapshot is
    empty (the host was not running, or was running without a workbook),
    every process that answers EXCEL.EXE and lets itself be killed is
    killed; when the process that serves the application is one of them,
    the application and all its workbooks go with it. *)
Theorem cleanup_selected_by_onset_snapshot
    (kill_after maximize include_addins : bool) (body : M unit)
    (w0 w1 w2 : World) (onset created : list handle) (outcome : result unit) :
  application_enter w0 = (Ok onset, w1) →
  body w1 = (outcome, w2) →
  new_workbooks onset w2 = (Ok created, w2) →
  cleanup_path kill_after outcome = true →
  let r := (application kill_after maximize include_addins body w0).1 in
  let wf := (application kill_after maximize include_addins body w0).2 in
  (onset ≠ [] →
     (is_excel_open w0).1 = Ok true
     ∧ procs wf = procs w2 ∧ alive wf = alive w2
     ∧ (∀ h, h ∈ onset → assoc h (Workbooks wf) = assoc h (Workbooks w2))
     ∧ (∀ h, h ∉ created → assoc h (Workbooks wf) = assoc h (Workbooks w2))
     ∧ (reconciled r → ∀ h, h ∈ created → assoc h (Workbooks wf) = None)
     ∧ journal_grows (λ ev, closing_event ev ∨ ev = CoUninitialized) w2 wf)
  ∧ (onset = [] →
     wf = record CoUninitialized (kill_sweep (procs w2) w2)
     ∧ (∀ p, p ∈ procs w2 → killable p = true → p ∉ procs wf)
     ∧ (Exists (λ p, killable p = true ∧ serves_com p = true) (procs w2) →
          alive wf = false ∧ Workbooks wf = [])).
Proof.
  intros Henter Hbody Hnew Hpath r wf. split.
  - intros Hne.
    destruct (session_closes kill_after maximize include_addins body
                w0 w1 w2 onset created outcome Henter Hbody Hnew Hpath Hne)
      as (rc & w3 & Hc & ((Hp & Ha & _) & _ & Hj & Hw) & Hs & Hraise & Hgone).
    destruct (new_workbooks_Ok_inv _ _ _ _ Hnew) as (_ & _ & _ & _ & _ & Hdisj).
    assert (Hout : ∀ h, h ∉ created → assoc h (Workbooks w3) = assoc h (Workbooks w2)).
    { intros h Hn. by destruct (Hw h) as [?|[? _]]. }
    subst r wf. cbv zeta in Hs. rewrite Hs.
    split; [by eapply enter_onset_nonempty|].
    destruct rc as [[]|e]; simpl.
    + split; [done|]. split; [done|]. split; [by intros h ?; apply Hout, Hdisj|].
      split; [done|]. split; [by intros _; apply Hgone|].
      eapply journal_grows_trans.
      * eapply journal_grows_weaken; [|exact Hj]. by left.
      * eapply journal_grows_record; [|done]. by right.
    + split; [done|]. split; [done|]. split; [by intros h ?; apply Hout, Hdisj|].
      split; [done|]. split.
      * destruct (Hraise e eq_refl) as [hr ->]. done.
      * eapply journal_grows_weaken; [|exact Hj]. by left.
  - intros Hempty.
    pose proof (session_kills kill_after maximize include_addins body
                  w0 w1 w2 onset created outcome Henter Hbody Hnew Hpath Hempty)
      as Hs.
    subst r wf. cbv zeta in Hs. rewrite Hs. simpl.
    destruct (kill_sweep_facts (procs w2) w2) as (Hp & _ & Hx & _).
    split; [done|]. split; [by intros p ? ?; apply kill_sweep_removes|].
    exact Hx.
Qed.

Lemma cleanup_selected_by_onset_snapshot_witness :
  let wf := (application true false false (Workbooks_Add 2 Book2) desk_busy).2 in
  assoc 1%nat (Workbooks wf) = Some Book1
  ∧ assoc 2%nat (Workbooks wf) = None
  ∧ alive wf = true.
Proof.
  pose (w1 := (application_enter desk_busy).2).
  pose (w2 := (Workbooks_Add 2 Book2 w1).2).
  destruct (cleanup_selected_by_onset_snapshot true false false
              (Workbooks_Add 2 Book2) desk_busy w1 w2 [1%nat] [2%nat] (Ok tt))
    as [Hclose _]; [vm_compute; reflexivity..|].
  destruct Hclose as (_ & _ & Ha & Hon & _ & Hgone & _); [discriminate|].
  intros wf. split; [|split].
  - subst wf. rewrite Hon; [reflexivity | left].
  - apply Hgone; [vm_compute; exact I | left].
  - subst wf. rewrite Ha. reflexivity.
Defined.

Lemma wrapped_differs (e : exn) : ExcelError (PyExn e) ≠ e.
Proof.
  intros H. apply (f_equal exn_depth) in H. simpl in H. lia.
Qed.

(** C2, counterexample.  The body raises [ValueError]; what reaches the
    caller after the clean-up is not that exception but a new [ExcelError]
    that carries it as its argument. *)
Lemma body_error_reaches_caller_wrapped :
  (body_adds_then_fails (application_enter desk_busy).2).1
    = Raise (UserException "ValueError")
  ∧ (application false true false body_adds_then_fails desk_busy).1
    = Raise (ExcelError (PyExn (UserException "ValueError")))
  ∧ (application false true false body_adds_then_fails desk_busy).1
    ≠ Raise (UserException "ValueError").
Proof.
  split; [reflexivity|].
  assert (H : (application false true false body_adds_then_fails desk_busy).1
              = Raise (ExcelError (PyExn (UserException "ValueError"))))
    by (vm_compute; reflexivity).
  split; [exact H|]. rewrite H. discriminate.
Qed.

(** C2, as the code has it.  When the body raises an [Exception] whose
    object is truthy (as it is unless its class defines [__bool__] or
    [__len__] otherwise), the [finally] suite runs whatever [kill_after]
    is: the created workbooks are determined and the clean-up of line 239
    is carried out.  If that completes, [CoUninitialize] is called and an
    [ExcelError] whose argument is the exception of the body is raised to
    the caller; that is a different exception object than the one the body
    raised.  If a call of the clean-up raises, its exception is what
    reaches the caller. *)
Theorem body_exception_cleaned_up_then_wrapped
    (kill_after maximize include_addins : bool) (body : M unit)
    (w0 w1 w2 : World) (onset : list handle) (e : exn) :
  application_enter w0 = (Ok onset, w1) →
  body w1 = (Raise e, w2) →
  is_Exception e = true →
  exn_truthy e = true →
  application kill_after maximize include_addins body w0
  = (new_workbooks onset ≫= λ created,
     cleanup_suite onset created ;;
     CoUninitialize ;;
     raise (ExcelError (PyExn e))) w2
  ∧ ExcelError (PyExn e) ≠ e
  ∧ (∀ created w3,
       new_workbooks onset w2 = (Ok created, w2) →
       cleanup_suite onset created w2 = (Ok tt, w3) →
       application kill_after maximize include_addins body w0
       = (Raise (ExcelError (PyExn e)), record CoUninitialized w3)).
Proof.
  intros Henter Hbody He Ht.
  rewrite (application_run _ _ _ _ _ _ _ _ _ Henter Hbody).
  simpl err_msg_of. rewrite He.
  assert (Hgen : ∀ created,
    new_workbooks onset w2 = (Ok created, w2) →
    application_finally kill_after maximize include_addins onset
      (Some (PyExn e)) w2
    = match cleanup_suite onset created w2 with
      | (Ok _, w3) => (Raise (ExcelError (PyExn e)), record CoUninitialized w3)
      | (Raise e', w3) => (Raise e', w3)
      end).
  { intros created Hnew.
    rewrite (application_finally_cleanup _ _ _ _ created);
      [|done|right; by exists (PyExn e)].
    simpl report_of. by rewrite Ht. }
  split; [|split].
  - rewrite run_bind.
    pose proof (new_workbooks_pure onset w2) as Hpure.
    destruct (new_workbooks onset w2) as [[created|e'] w'] eqn:Hnew;
      simpl in Hpure; subst w'.
    + rewrite (Hgen created) by done. rewrite run_bind.
      by destruct (cleanup_suite onset created w2) as [[[]|e'] w3].
    + unfold application_finally. by rewrite run_bind, Hnew.
  - apply wrapped_differs.
  - intros created w3 Hnew Hclean. by rewrite (Hgen created), Hclean.
Qed.

Lemma body_exception_cleaned_up_then_wrapped_witness :
  application false true false body_adds_then_fails desk_busy
  = (Raise (ExcelError (PyExn (UserException "ValueError"))),
     record CoUninitialized
       (close_workbooks [2%nat]
          (body_adds_then_fails (application_enter desk_busy).2).2).2).
Proof.
  eapply (body_exception_cleaned_up_then_wrapped false true false
            body_adds_then_fails desk_busy (application_enter desk_busy).2
            (body_adds_then_fails (application_enter desk_busy).2).2
            [1%nat] (UserException "ValueError")).
  - vm_compute. reflexivity.
  - vm_compute. reflexivity.
  - reflexivity.
  - reflexivity.
  - vm_compute. reflexivity.
  - vm_compute. reflexivity.
Defined.

(** C4, counterexample.  The body raises [ValueError] after adding a
    workbook that the host refuses to close.  The [com_error] of the failing
    [Close] is what reaches the caller; the session failure is lost and the
    workbook stays open. *)
Lemma close_failure_masks_session_failure :
  (body_adds_stuck_then_fails (application_enter desk_busy).2).1
    = Raise (UserException "ValueError")
  ∧ ∃ wf, application false true false body_adds_stuck_then_fails desk_busy
          = (Raise (com_error (-2147418111)), wf)
          ∧ assoc 5%nat (Workbooks wf) = Some Stuck.
Proof. split; [reflexivity|]. eexists. split; [vm_compute; reflexivity|]. done. Qed.

(** C4, as the code has it.  After a body that raised an [Exception]
    whose object is truthy: when the clean-up is the killing of processes,
    nothing a process answers to [name()] or [kill()] ([AccessDenied],
    [NoSuchProcess]) is raised, and the [ExcelError] carrying the failure
    of the body reaches the caller; when the clean-up is the closing of the
    created workbooks, an error raised by a call of [close_workbooks] is
    not caught: it reaches the caller in place of the session failure, and
    only when every call succeeds does the [ExcelError] reach the
    caller. *)
Theorem kill_errors_swallowed_close_errors_raised
    (kill_after maximize include_addins : bool) (body : M unit)
    (w0 w1 w2 : World) (onset created : list handle) (e : exn) :
  application_enter w0 = (Ok onset, w1) →
  body w1 = (Raise e, w2) →
  is_Exception e = true →
  exn_truthy e = true →
  new_workbooks onset w2 = (Ok created, w2) →
  (∀ ps w, kill_loop ps w = (Ok tt, kill_sweep ps w))
  ∧ (onset = [] →
       application kill_after maximize include_addins body w0
       = (Raise (ExcelError (PyExn e)),
          record CoUninitialized (kill_sweep (procs w2) w2)))
  ∧ (onset ≠ [] →
       ∀ rc w3, close_workbooks created w2 = (rc, w3) →
       application kill_after maximize include_addins body w0
       = match rc with
         | Ok _ => (Raise (ExcelError (PyExn e)), record CoUninitialized w3)
         | Raise e' => (Raise e', w3)
         end).
Proof.
  intros Henter Hbody He Ht Hnew.
  assert (Hpath : cleanup_path kill_after (Raise e) = true).
  { unfold cleanup_path. simpl. rewrite He. simpl. rewrite Ht.
    by destruct kill_after. }
  assert (Hrep : report_of (err_msg_of (Raise e)) = Raise (ExcelError (PyExn e))).
  { simpl. rewrite He. simpl. by rewrite Ht. }
  split; [apply kill_loop_run|]. split.
  - intros Hempty.
    rewrite (session_kills kill_after maximize include_addins body
               w0 w1 w2 onset created (Raise e) Henter Hbody Hnew Hpath Hempty).
    by rewrite Hrep.
  - intros Hne rc w3 Hc.
    destruct (session_closes kill_after maximize include_addins body
                w0 w1 w2 onset created (Raise e) Henter Hbody Hnew Hpath Hne)
      as (rc' & w3' & Hc' & _ & Hs & _).
    rewrite Hc in Hc'. injection Hc' as <- <-.
    cbv zeta in Hs. rewrite Hs. by rewrite Hrep.
Qed.

Lemma kill_errors_swallowed_close_errors_raised_witness :
  application false true false body_fails desk_guarded
  = (Raise (ExcelError (PyExn (UserException "ValueError"))),
     record CoUninitialized (record CoInitialized desk_guarded)).
Proof.
  eapply (kill_errors_swallowed_close_errors_raised false true false
            body_fails desk_guarded (application_enter desk_guarded).2
            (application_enter desk_guarded).2 [] [] (UserException "ValueError")).
  - vm_compute. reflexivity.
  - reflexivity.
  - reflexivity.
  - reflexivity.
  - vm_compute. reflexivity.
  - reflexivity.
Defined.

Lemma closing_is_quiet (ev : event) : closing_event ev → quiet_event ev.
Proof. destruct ev; simpl; intros H; try done; split; intros []. Qed.

Lemma reveal_with_is_reveal (st : Z) (ev : event) :
  reveal_with st ev → reveal_event ev ∧ ¬ addin_event ev.
Proof. destruct ev; simpl; intros H; try done; split; try done; intros []. Qed.

(** Where the reveal and the add-in loop run.  On the path without
    clean-up ([kill_after] false, body returned) the [finally] suite is:
    determine the created workbooks, run the add-in loop if and only if
    [include_addins] is set, call [see_excel] on the created workbooks with
    -4137 when [maximize] is set and -4140 when it is not, and
    uninitialize.  The journal then shows, for each installed add-in,
    [Installed] switched off and on (none of it without [include_addins]),
    followed by reveal events that carry that window state.  With
    [kill_after] set, or after a body that raised something that is not an
    [Exception] or whose object is truthy, no reveal event and no add-in
    event is recorded. *)
Lemma reveal_and_addins_only_on_success_alive
    (kill_after maximize include_addins : bool) (body : M unit)
    (w0 w1 w2 : World) (onset : list handle) (outcome : result unit) :
  application_enter w0 = (Ok onset, w1) →
  body w1 = (outcome, w2) →
  let session := application kill_after maximize include_addins body w0 in
  (kill_after = false → outcome = Ok tt →
     session
     = (new_workbooks onset ≫= λ created,
        (if include_addins then app_AddIns ≫= reload_addins else mret tt) ;;
        see_excel created (if maximize then -4137 else -4140) ;;
        CoUninitialize) w2
     ∧ ∀ created, new_workbooks onset w2 = (Ok created, w2) →
         ∃ w3 evs,
           session = (Ok tt, record CoUninitialized w3)
           ∧ journal w3
             = journal w2
               ++ (if include_addins
                   then flat_map (toggle_events (AddIns w2))
                          (seq 0 (length (AddIns w2)))
                   else [])
               ++ evs
           ∧ Forall (reveal_with (if maximize then -4137 else -4140)) evs
           ∧ Forall (λ ev, ¬ addin_event ev) evs)
  ∧ (kill_after = true
     ∨ (∃ e, outcome = Raise e ∧ (is_Exception e = false ∨ exn_truthy e = true)) →
     journal_grows quiet_event w2 session.2).
Proof.
  intros Henter Hbody session. split.
  - intros Hk Hout. split.
    + subst session kill_after outcome.
      rewrite (application_run _ _ _ _ _ _ _ _ _ Henter Hbody).
      simpl err_msg_of. rewrite run_bind.
      pose proof (new_workbooks_pure onset w2) as Hpure.
      destruct (new_workbooks onset w2) as [[created|e'] w'] eqn:Hnew;
        simpl in Hpure; subst w'.
      * rewrite (application_finally_reveal _ _ _ created) by done.
        unfold reveal_suite. rewrite !run_bind.
        destruct ((if include_addins then app_AddIns ≫= reload_addins
                   else mret tt) w2) as [[[]|e'] wa]; [|done].
        destruct maximize; rewrite run_bind;
          by match goal with |- context [see_excel ?c ?s ?w] =>
               destruct (see_excel c s w) as [[[]|?] ?] end.
      * unfold application_finally. by rewrite run_bind, Hnew.
    + intros created Hnew.
      destruct (session_reveals kill_after maximize include_addins body
                  w0 w1 w2 onset created outcome Henter Hbody Hnew Hk Hout)
        as (w3 & evs & Hs & _ & _ & _ & Hj & Hevs & _).
      exists w3, evs. split; [done|]. split; [done|].
      split; [by destruct maximize|].
      eapply Forall_impl; [exact Hevs|]. intros ev. by intros []%reveal_with_is_reveal.
  - intros Hother. subst session.
    rewrite (application_run _ _ _ _ _ _ _ _ _ Henter Hbody).
    pose proof (new_workbooks_pure onset w2) as Hpure.
    destruct (new_workbooks onset w2) as [[created|e'] w'] eqn:Hnew;
      simpl in Hpure; subst w';
      [|unfold application_finally; rewrite run_bind, Hnew;
        apply journal_grows_refl].
    destruct (cleanup_path kill_after outcome) eqn:Hpath.
    + rewrite (application_finally_cleanup _ _ _ _ created) by
        (done || by apply cleanup_path_premise).
      unfold cleanup_suite. case_bool_decide.
      * destruct (close_workbooks created w2) as [rc w3] eqn:Hc.
        apply close_workbooks_any in Hc as (_ & _ & Hj & _).
        apply (journal_grows_weaken _ quiet_event) in Hj;
          [|apply closing_is_quiet].
        destruct rc as [[]|e']; [|done]. simpl.
        eapply journal_grows_trans; [exact Hj|].
        eapply journal_grows_record; [|done]. split; intros [].
      * rewrite kill_all_run.
        destruct (kill_sweep_facts (procs w2) w2) as (_ & Hj & _).
        exists (map (λ p, Killed (pid p))
                  (filter (λ p, killable p = true) (procs w2))
                ++ [CoUninitialized]).
        split; [by simpl; rewrite Hj, app_assoc|].
        apply Forall_app. split; [|constructor; [split; intros [] | constructor]].
        apply Forall_fmap, Forall_forall. intros p _. split; intros [].
    + unfold cleanup_path in Hpath. apply orb_false_iff in Hpath as [-> Hexc].
      destruct Hother as [?|(e & -> & Hkind)]; [done|]. simpl in *.
      destruct (is_Exception e); [|clear Hkind].
      * destruct Hkind as [?|Ht]; [done|]. simpl in Hexc. congruence.
      * destruct (application_finally_unbound maximize include_addins onset w2)
          as [e' ->]. apply journal_grows_refl.
Qed.

Lemma reveal_and_addins_only_on_success_alive_on_desk :
  journal (application false false true (Workbooks_Add 2 Book2) desk_busy).2
  = [CoInitialized; SetInstalled 0 false; SetInstalled 0 true;
     SetAppVisible true;
     SetWindowVisible 2 0 true; SetWindowState 2 0 (-4140);
     SetWindowVisible 2 1 true; SetWindowState 2 1 (-4140);
     CoUninitialized].
Proof.
  pose (w1 := (application_enter desk_busy).2).
  pose (w2 := (Workbooks_Add 2 Book2 w1).2).
  destruct (reveal_and_addins_only_on_success_alive false false true
              (Workbooks_Add 2 Book2) desk_busy w1 w2 [1%nat] (Ok tt))
    as [Hreveal _]; [vm_compute; reflexivity..|].
  destruct Hreveal as [Heq _]; [reflexivity..|].
  rewrite Heq. vm_compute. reflexivity.
Defined.

(** C9.  The docstring of [application] says that neither the windows
    code nor the add-in code runs when an error occurs in the [with] block.
    Lines 239 and 270 test the truthiness of the caught exception instead
    of its presence: after a body that raised an [Exception] whose object
    is falsy, with [kill_after] off, the [else] suite of line 248 runs.
    Here it switches the installed add-in off and on, shows the created
    workbook maximized, and returns normally. *)
Lemma falsy_exception_body_is_revealed :
  (body_adds_then_fails_falsy (application_enter desk_busy).2).1
    = Raise (FalsyException "EmptyErrors")
  ∧ ∃ wf, application false true true body_adds_then_fails_falsy desk_busy
          = (Ok tt, wf)
          ∧ journal wf
            = [CoInitialized; SetInstalled 0 false; SetInstalled 0 true;
               SetAppVisible true;
               SetWindowVisible 2 0 true; SetWindowState 2 0 (-4137);
               SetWindowVisible 2 1 true; SetWindowState 2 1 (-4137);
               CoUninitialized]
          ∧ assoc 2%nat (Workbooks wf) = Some (shown (-4137) Book2).
Proof.
  split; [reflexivity|]. eexists. split; [vm_compute; reflexivity|].
  split; reflexivity.
Qed.

(** C3, counterexample.  The host is not running; the body opens the macro
    workbook of the startup folder, whose window is hidden, and returns;
    [kill_after] is off.  The workbook was created by the session, and when
    the session ends it is neither closed nor visible. *)
Lemma startup_workbook_neither_closed_nor_visible :
  ∃ w1 w2 wf,
    application_enter desk_quiet = (Ok [], w1)
    ∧ Workbooks_Add 4 Macros w1 = (Ok tt, w2)
    ∧ new_workbooks [] w2 = (Ok [4%nat], w2)
    ∧ application false true false (Workbooks_Add 4 Macros) desk_quiet = (Ok tt, wf)
    ∧ assoc 4%nat (Workbooks wf) = Some Macros
    ∧ Windows Macros = [mkWindow false (-4143)]
    ∧ lies_under (StartupPath desk_quiet) (FullName Macros) = true.
Proof.
  do 3 eexists. split; [vm_compute; reflexivity|].
  split; [vm_compute; reflexivity|]. split; [vm_compute; reflexivity|].
  split; [vm_compute; reflexivity|]. done.
Qed.

Lemma prefix_str_in (a b : string) : String.prefix a b = true → str_in a b = true.
Proof.
  unfold str_in. destruct b as [|c b]; simpl.
  - by destruct a.
  - by intros ->.
Qed.

Lemma lies_under_str_in (dir path : string) :
  lies_under dir path = true → str_in dir path = true.
Proof.
  unfold lies_under. intros [Hp _]%andb_true_iff. by apply prefix_str_in.
Qed.

(** C3, as the code has it.  Let [created] be what [new_workbooks] finds
    when the body ends; no workbook of the snapshot taken on entry is among
    them.  If line 239 chooses the clean-up ([kill_after] is set, or the
    body raised an [Exception] whose object is truthy) and the snapshot is
    not empty, then, provided the clean-up ran to its end (no call of it
    raised), every created workbook is closed, and in any case every other
    workbook is as the body left it.  If the clean-up is chosen and the
    snapshot is empty, then, provided the process serving the application
    is an EXCEL.EXE that lets itself be killed, no workbook is left open.
    If [kill_after] is off and the body returned, the session returns
    normally, every created workbook is still open under its name, those
    whose [FullName] does not contain the [StartupPath] have every window
    visible and in the requested state, those that lie under the startup
    folder are as the body left them, and every other workbook is as the
    body left it. *)
Theorem session_end_state
    (kill_after maximize include_addins : bool) (body : M unit)
    (w0 w1 w2 : World) (onset created : list handle) (outcome : result unit) :
  application_enter w0 = (Ok onset, w1) →
  body w1 = (outcome, w2) →
  new_workbooks onset w2 = (Ok created, w2) →
  let r := (application kill_after maximize include_addins body w0).1 in
  let wf := (application kill_after maximize include_addins body w0).2 in
  (∀ h, h ∈ onset → h ∉ created)
  ∧ (cleanup_path kill_after outcome = true → onset ≠ [] →
       (reconciled r → ∀ h, h ∈ created → assoc h (Workbooks wf) = None)
       ∧ (∀ h, h ∉ created → assoc h (Workbooks wf) = assoc h (Workbooks w2)))
  ∧ (cleanup_path kill_after outcome = true → onset = [] →
       Exists (λ p, killable p = true ∧ serves_com p = true) (procs w2) →
       Workbooks wf = [])
  ∧ (kill_after = false → outcome = Ok tt →
       r = Ok tt
       ∧ (∀ h, h ∈ created →
            ∃ b b', assoc h (Workbooks w2) = Some b
                    ∧ assoc h (Workbooks wf) = Some b'
                    ∧ FullName b' = FullName b
                    ∧ (str_in (StartupPath w2) (FullName b) = false →
                         b' = shown (requested_state maximize) b)
                    ∧ (lies_under (StartupPath w2) (FullName b) = true →
                         b' = b))
       ∧ (∀ h, h ∉ created → assoc h (Workbooks wf) = assoc h (Workbooks w2))).
Proof.
  intros Henter Hbody Hnew r wf.
  destruct (new_workbooks_Ok_inv _ _ _ _ Hnew) as (_ & Hup & _ & _ & Hlive & Hdisj).
  split; [exact Hdisj|]. split; [|split].
  - intros Hpath Hne.
    destruct (session_closes kill_after maximize include_addins body
                w0 w1 w2 onset created outcome Henter Hbody Hnew Hpath Hne)
      as (rc & w3 & Hc & (_ & _ & _ & Hw) & Hs & Hraise & Hgone).
    subst r wf. cbv zeta in Hs. rewrite Hs.
    assert (Hout : ∀ h, h ∉ created → assoc h (Workbooks w3) = assoc h (Workbooks w2)).
    { intros h Hn. by destruct (Hw h) as [?|[? _]]. }
    destruct rc as [[]|e]; simpl.
    + split; [by intros _; apply Hgone | done].
    + split; [|done]. destruct (Hraise e eq_refl) as [hr ->]. done.
  - intros Hpath Hempty Hserving.
    pose proof (session_kills kill_after maximize include_addins body
                  w0 w1 w2 onset created outcome Henter Hbody Hnew Hpath Hempty)
      as Hs.
    subst wf. cbv zeta in Hs. rewrite Hs. simpl.
    destruct (kill_sweep_facts (procs w2) w2) as (_ & _ & Hx & _).
    by apply Hx.
  - intros Hk Hout.
    destruct (session_reveals kill_after maximize include_addins body
                w0 w1 w2 onset created outcome Henter Hbody Hnew Hk Hout)
      as (w3 & evs & Hs & _ & _ & _ & _ & _ & Hw).
    subst r wf. cbv zeta in Hs. rewrite Hs. simpl.
    split; [done|]. split.
    + intros h Hin. rewrite Forall_forall in Hlive.
      destruct (Hlive h Hin) as [b Hb]. exists b.
      rewrite Hw, Hb. unfold passed_over, FullName_at. rewrite Hb.
      unfold requested_state.
      destruct (str_in (StartupPath w2) (FullName b)) eqn:Hin_startup.
      * rewrite decide_False by (by intros [_ ?]). exists b.
        split; [done|]. split; [done|]. split; [done|]. split; done.
      * rewrite decide_True by done. eexists.
        split; [done|]. split; [done|]. split; [done|]. split; [done|].
        intros Hunder%lies_under_str_in. congruence.
    + intros h Hn. rewrite Hw, decide_False; [done | by intros [? _]].
Qed.

Lemma session_end_state_witness :
  let wf := (application false true false (Workbooks_Add 2 Book2) desk_busy).2 in
  assoc 2%nat (Workbooks wf) = Some (shown (-4137) Book2)
  ∧ assoc 1%nat (Workbooks wf) = Some Book1.
Proof.
  pose (w1 := (application_enter desk_busy).2).
  pose (w2 := (Workbooks_Add 2 Book2 w1).2).
  destruct (session_end_state false true false
              (Workbooks_Add 2 Book2) desk_busy w1 w2 [1%nat] [2%nat] (Ok tt))
    as (_ & _ & _ & Hreveal); [vm_compute; reflexivity..|].
  destruct Hreveal as (_ & Hin & Hout); [reflexivity..|].
  intros wf. split.
  - destruct (Hin 2%nat) as (b & b' & Hb & Hf & _ & Hshown & _); [left|].
    subst wf. rewrite Hf. vm_compute in Hb. injection Hb as <-.
    by rewrite Hshown.
  - subst wf. rewrite Hout; [reflexivity|]. by intros [=]%list_elem_of_singleton.
Defined.

(** A body that is interrupted raises something that is not an
    [Exception]: neither the [except] nor the [else] clause binds [err_msg].
    With [kill_after] off, line 239 then fails on the unbound local before
    any clean-up; the created workbook stays open and hidden, and
    [UnboundLocalError] is what the caller sees. *)
Lemma interrupted_body_skips_cleanup :
  ∃ wf, application false true false
          (Workbooks_Add 2 Book2 ;; raise KeyboardInterrupt) desk_busy
        = (Raise (UnboundLocalError "err_msg"), wf)
        ∧ assoc 2%nat (Workbooks wf) = Some Book2
        ∧ journal wf = [CoInitialized].
Proof. eexists. split; [vm_compute; reflexivity|]. done. Qed.

(* ===================================================================== *)
(** * Part III.  Further properties of the toolkit                         *)
(* ===================================================================== *)

(** ** is_excel_open *)

Lemma is_excel_open_round_run (proc : Proc) (w : World) :
  try_except
    (Process_name proc ≫= λ n : string, mret (String.eqb n EXCEL_PROCESS_NAME))
    is_AccessDenied (mret false) w
  = (match proc_name proc with
     | NameIs n => Ok (String.eqb n EXCEL_PROCESS_NAME)
     | NameDenied => Ok false
     | NameGone => Raise NoSuchProcess
     end, w).
Proof.
  unfold try_except, Process_name. rewrite run_bind.
  by destruct (proc_name proc).
Qed.

Lemma is_excel_open_loop_run (ps : list Proc) (w : World) :
  is_excel_open_loop ps w = (scan_for_excel ps, w).
Proof.
  induction ps as [|p rest IH]; [done|].
  cbn [is_excel_open_loop scan_for_excel].
  rewrite run_bind, is_excel_open_round_run.
  unfold answers_excel, vanished.
  destruct (proc_name p) as [n| |]; try done.
  by destruct (String.eqb n EXCEL_PROCESS_NAME).
Qed.

Lemma is_excel_open_run (w : World) :
  is_excel_open w = (scan_for_excel (procs w), w).
Proof.
  unfold is_excel_open, process_iter. rewrite run_bind. apply is_excel_open_loop_run.
Qed.

Lemma scan_no_vanished (ps : list Proc) :
  Forall (λ p, vanished p = false) ps →
  scan_for_excel ps = Ok (existsb answers_excel ps).
Proof.
  induction 1 as [|p rest Hp _ IH]; [done|]. simpl.
  destruct (answers_excel p); [done|]. by rewrite Hp.
Qed.

(** X1.  [is_excel_open] changes nothing.  When no listed process has
    vanished, it returns [True] exactly when some process answers
    [name()] with EXCEL.EXE; processes that refuse their name count as
    not matching. *)
Theorem is_excel_open_iff_some_process_answers (w : World) :
  Forall (λ p, vanished p = false) (procs w) →
  is_excel_open w = (Ok (existsb answers_excel (procs w)), w)
  ∧ (existsb answers_excel (procs w) = true
     ↔ ∃ p, p ∈ procs w ∧ proc_name p = NameIs EXCEL_PROCESS_NAME).
Proof.
  intros Hv. split; [by rewrite is_excel_open_run, scan_no_vanished|].
  rewrite existsb_exists. split.
  - intros (p & Hin & Hp). exists p. split; [by apply list_elem_of_In|].
    unfold answers_excel in Hp. destruct (proc_name p) as [n| |]; try done.
    by apply String.eqb_eq in Hp as ->.
  - intros (p & Hin & Hp). exists p. split; [by apply list_elem_of_In|].
    unfold answers_excel. by rewrite Hp.
Qed.

Lemma is_excel_open_iff_some_process_answers_witness :
  is_excel_open desk_guarded = (Ok true, desk_guarded).
Proof.
  apply (is_excel_open_iff_some_process_answers desk_guarded).
  repeat constructor.
Defined.

(** X2.  Only [AccessDenied] is passed over (line 30): when a process
    that has vanished is listed before any process answering EXCEL.EXE,
    [is_excel_open] raises [NoSuchProcess], and so does [application],
    before [CoInitialize] and without running the body of the [with]
    statement. *)
Theorem vanished_process_makes_is_excel_open_raise
    (pre post : list Proc) (p : Proc) (w : World)
    (kill_after maximize include_addins : bool) (body : M unit) :
  procs w = pre ++ p :: post →
  Forall (λ q, answers_excel q = false ∧ vanished q = false) pre →
  vanished p = true →
  is_excel_open w = (Raise NoSuchProcess, w)
  ∧ application kill_after maximize include_addins body w
    = (Raise NoSuchProcess, w).
Proof.
  intros Hps Hpre Hp.
  assert (Hscan : scan_for_excel (procs w) = Raise NoSuchProcess).
  { rewrite Hps. clear Hps. induction Hpre as [|q pre [Ha Hv] _ IH]; simpl.
    - rewrite Hp. unfold answers_excel, vanished in *.
      by destruct (proc_name p).
    - by rewrite Ha, Hv. }
  assert (Hopen : is_excel_open w = (Raise NoSuchProcess, w))
    by (by rewrite is_excel_open_run, Hscan).
  split; [done|].
  unfold application, application_enter. by rewrite run_bind, Hopen.
Qed.

Lemma vanished_process_makes_is_excel_open_raise_witness :
  application true true false (Workbooks_Add 2 Book2)
    (with_procs [explorer_1; mkProc 4 NameGone KillGone false; excel_7] desk_busy)
  = (Raise NoSuchProcess,
     with_procs [explorer_1; mkProc 4 NameGone KillGone false; excel_7] desk_busy).
Proof.
  eapply (vanished_process_makes_is_excel_open_raise [explorer_1] [excel_7]
            (mkProc 4 NameGone KillGone false)).
  - reflexivity.
  - repeat constructor.
  - reflexivity.
Defined.

(** ** kill_all_instances_of_excel, once more *)

Lemma kill_sweep_nothing (ps : list Proc) (w : World) :
  Forall (λ p, killable p = false) ps → kill_sweep ps w = w.
Proof.
  induction 1 as [|p rest Hp _ IH]; [done|].
  unfold kill_sweep in *. simpl. by rewrite Hp.
Qed.

Lemma kill_sweep_leaves_no_killable (w : World) :
  Forall (λ p, killable p = false) (procs (kill_sweep (procs w) w)).
Proof.
  destruct (kill_sweep_facts (procs w) w) as (-> & _).
  apply Forall_forall. intros p [Hn Hin]%list_elem_of_filter.
  destruct (killable p) eqn:Hk; [|done]. destruct Hn.
  apply list_elem_of_fmap. exists p. split; [done|].
  by apply list_elem_of_filter.
Qed.

(** X3.  [kill_all_instances_of_excel()] never raises.  When no process
    both answers EXCEL.EXE and lets itself be killed (the host is not
    running, or every answer is a refusal or a disappearance), it changes
    nothing at all; and calling it a second time always changes
    nothing. *)
Theorem kill_all_tolerant_and_idempotent (w : World) :
  (kill_all_instances_of_excel false w).1 = Ok tt
  ∧ (Forall (λ p, killable p = false) (procs w) →
       kill_all_instances_of_excel false w = (Ok tt, w))
  ∧ (let w' := (kill_all_instances_of_excel false w).2 in
     kill_all_instances_of_excel false w' = (Ok tt, w')).
Proof.
  rewrite kill_all_run. simpl. split; [done|]. split.
  - intros Hn. by rewrite kill_sweep_nothing.
  - rewrite kill_all_run.
    by rewrite (kill_sweep_nothing _ _ (kill_sweep_leaves_no_killable w)).
Qed.

Lemma excel_not_open_after_sweep (w : World) :
  Forall (λ p, vanished p = false
               ∧ (answers_excel p = true → killable p = true)) (procs w) →
  scan_for_excel (procs (kill_sweep (procs w) w)) = Ok false.
Proof.
  intros Hall.
  pose proof (kill_sweep_leaves_no_killable w) as Hnk.
  destruct (kill_sweep_facts (procs w) w) as (Hp & _).
  assert (Hsub : ∀ p, p ∈ procs (kill_sweep (procs w) w) → p ∈ procs w).
  { intros p. rewrite Hp. by intros [_ ?]%list_elem_of_filter. }
  rewrite Forall_forall in Hall. rewrite Forall_forall in Hnk.
  rewrite scan_no_vanished.
  - f_equal. apply not_true_is_false.
    intros (p & Hin%list_elem_of_In & Ha)%existsb_exists.
    destruct (Hall p (Hsub p Hin)) as [_ Hkill].
    specialize (Hnk p Hin). rewrite Hkill in Hnk; done.
  - apply Forall_forall. intros p Hin. by destruct (Hall p (Hsub p Hin)).
Qed.

(** X4.  After [kill_all_instances_of_excel()], [is_excel_open] returns
    [False], provided no listed process has vanished and every process
    answering EXCEL.EXE lets itself be killed. *)
Theorem kill_all_then_excel_is_not_open (w : World) :
  Forall (λ p, vanished p = false
               ∧ (answers_excel p = true → killable p = true)) (procs w) →
  let w' := (kill_all_instances_of_excel false w).2 in
  is_excel_open w' = (Ok false, w').
Proof.
  intros Hall. rewrite kill_all_run. simpl.
  by rewrite is_excel_open_run, excel_not_open_after_sweep.
Qed.

Lemma kill_all_then_excel_is_not_open_witness :
  is_excel_open (kill_all_instances_of_excel false desk_busy).2
  = (Ok false, (kill_all_instances_of_excel false desk_busy).2).
Proof.
  apply (kill_all_then_excel_is_not_open desk_busy).
  repeat constructor; done.
Defined.

Lemma app_Quit_run (w : World) :
  app_Quit w = if alive w then (Ok tt, record Quitted w)
               else (Raise com_server_gone, w).
Proof. unfold app_Quit. rewrite run_bind, the_app_run. by destruct (alive w). Qed.

(** X5.  When an application object is passed and the graceful part
    (closing its workbooks, [Quit]) raises, the loop over the processes is
    never reached: no process is killed.  In particular an application
    object whose server is gone makes the call raise [com_error] at once
    and change nothing. *)
Theorem kill_all_with_app_failure_kills_nothing (w : World) :
  (alive w = false →
     kill_all_instances_of_excel true w = (Raise com_server_gone, w))
  ∧ (∀ e w', kill_all_instances_of_excel true w = (Raise e, w') →
       procs w' = procs w
       ∧ journal_grows graceful_event w w'
       ∧ ∃ hr, e = com_error hr).
Proof.
  unfold kill_all_instances_of_excel. rewrite run_bind, run_bind, run_bind.
  rewrite app_Workbooks_run. split.
  - by intros ->.
  - intros e w'. destruct (alive w) eqn:Hup.
    + destruct (close_workbooks (map fst (Workbooks w)) w) as [[[]|e1] w1] eqn:Hc.
      * apply close_workbooks_any in Hc as ((Hp & Ha & _) & _ & Hj & _).
        rewrite app_Quit_run, Ha, Hup.
        unfold process_iter. rewrite run_bind. unfold gets.
        by rewrite kill_loop_run.
      * pose proof (close_workbooks_raises _ _ _ _ Hc) as Hcom.
        apply close_workbooks_any in Hc as ((Hp & _) & _ & Hj & _).
        intros [= <- <-]. split; [done|]. split; [|done].
        eapply journal_grows_weaken; [|exact Hj]. by intros [].
    + intros [= <- <-]. split; [done|].
      split; [apply journal_grows_refl | by eexists].
Qed.

Lemma kill_all_with_app_failure_kills_nothing_witness :
  kill_all_instances_of_excel true (with_alive false desk_busy)
  = (Raise com_server_gone, with_alive false desk_busy)
  ∧ procs (kill_all_instances_of_excel true
             (Workbooks_Add 5 Stuck desk_busy).2).2
    = [explorer_1; excel_7].
Proof.
  split.
  - by apply (kill_all_with_app_failure_kills_nothing (with_alive false desk_busy)).
  - refine (proj1 (proj2 (kill_all_with_app_failure_kills_nothing
              (Workbooks_Add 5 Stuck desk_busy).2)
              (com_error (-2147418111)) _ _)).
    vm_compute. reflexivity.
Defined.

(** ** close_workbooks, once more *)

(** X6.  [close_workbooks] switches the alerts back on only after a
    successful [Close] (lines 99-101 have no [finally]): whenever it raises
    on a live application, what it raises is a [com_error] and
    [DisplayAlerts] is left at 0. *)
Theorem close_workbooks_failure_leaves_alerts_off
    (workbooks : list handle) (w w' : World) (e : exn) :
  alive w = true →
  close_workbooks workbooks w = (Raise e, w') →
  DisplayAlerts w' = 0%Z ∧ ∃ hr, e = com_error hr.
Proof.
  revert w. induction workbooks as [|wb rest IH]; intros w Hup; [done|].
  rewrite close_workbooks_cons.
  destruct (close_round_cases wb w)
    as [(b & _ & Hb & Hf & ->) | [(hr & -> & Hdead) | (hr & _ & ->)]].
  - by apply IH.
  - congruence.
  - intros [= <- <-]. eauto.
Qed.

Lemma close_workbooks_failure_leaves_alerts_off_witness :
  DisplayAlerts (close_workbooks [1%nat; 5%nat; 2%nat]
                   (Workbooks_Add 5 Stuck desk_two_muted).2).2 = 0%Z.
Proof.
  refine (proj1 (close_workbooks_failure_leaves_alerts_off [1%nat; 5%nat; 2%nat]
            (Workbooks_Add 5 Stuck desk_two_muted).2 _
            (com_error (-2147418111)) _ _)).
  - reflexivity.
  - vm_compute. reflexivity.
Defined.

Lemma assoc_None_all (l : list (handle * Workbook)) :
  (∀ h, assoc h l = None) → l = [].
Proof.
  destruct l as [|[k b] l]; [done|]. intros H. specialize (H k). simpl in H.
  by rewrite decide_True in H.
Qed.

(** X7.  Closing every workbook that is currently open leaves none:
    when [close_workbooks] returns normally on the list given by
    [workbooks_currently_open], a following [workbooks_currently_open]
    returns the empty list. *)
Theorem close_all_open_workbooks_leaves_none (w w1 w' : World) (wbs : list handle) :
  workbooks_currently_open w = (Ok wbs, w1) →
  close_workbooks wbs w1 = (Ok tt, w') →
  workbooks_currently_open w' = (Ok [], w') ∧ Workbooks w' = [].
Proof.
  unfold workbooks_currently_open. rewrite app_Workbooks_run.
  destruct (alive w) eqn:Hup; [|done]. intros [= <- <-] Hc.
  pose proof (close_workbooks_any _ _ _ _ Hc) as ((_ & Ha & _) & _ & _ & Hw).
  apply close_workbooks_Ok in Hc as (_ & Hgone & _).
  assert (Hnone : Workbooks w' = []).
  { apply assoc_None_all. intros h. destruct (Hw h) as [Hsame|[_ ?]]; [|done].
    destruct (assoc h (Workbooks w)) as [b|] eqn:Hb; [|by rewrite Hsame].
    apply Hgone, assoc_Some_fst. by exists b. }
  split; [|done]. by rewrite app_Workbooks_run, Ha, Hup, Hnone.
Qed.

Lemma close_all_open_workbooks_leaves_none_witness :
  Workbooks (close_workbooks [1%nat; 2%nat] desk_two_muted).2 = [].
Proof.
  refine (proj2 (close_all_open_workbooks_leaves_none desk_two_muted
            desk_two_muted _ [1%nat; 2%nat] _ (surjective_pairing _))).
  reflexivity.
Defined.

(** ** new_workbooks and close_workbooks together *)

Lemma FullNames_stale (wbs : list handle) (w : World) :
  alive w = true →
  Exists (λ h, assoc h (Workbooks w) = None) wbs →
  FullNames wbs w = (Raise com_object_gone, w).
Proof.
  intros Hup. induction wbs as [|wb rest IH]; [by intros ?%Exists_nil|].
  intros Hex. cbn [FullNames]. rewrite run_bind, wb_FullName_run, Hup.
  destruct (assoc wb (Workbooks w)) as [b|] eqn:Hb; [|done].
  apply Exists_cons in Hex as [Hhd|Htl]; [congruence|].
  by rewrite run_bind, IH.
Qed.

(** X8.  What [new_workbooks] reports is exactly what has to be closed:
    once [close_workbooks] has returned normally on its result,
    [new_workbooks] with the same snapshot reports nothing. *)
Theorem nothing_new_after_closing_the_new (onset created : list handle)
    (w w' : World) :
  new_workbooks onset w = (Ok created, w) →
  close_workbooks created w = (Ok tt, w') →
  new_workbooks onset w' = (Ok [], w').
Proof.
  intros Hnew Hc.
  destruct (new_workbooks_Ok_inv _ _ _ _ Hnew)
    as (_ & Hup & Hlive & Hcreated & _ & Hdisj).
  pose proof (close_workbooks_any _ _ _ _ Hc) as ((_ & Ha & _) & _ & _ & Hw).
  apply close_workbooks_Ok in Hc as (_ & Hgone & _).
  assert (Hkeep : ∀ h, h ∉ created → assoc h (Workbooks w') = assoc h (Workbooks w)).
  { intros h Hn. by destruct (Hw h) as [?|[? _]]. }
  assert (Hname : ∀ h, h ∉ created → FullName_at w' h = FullName_at w h).
  { intros h Hn. unfold FullName_at. by rewrite Hkeep. }
  assert (Hkeys : keys w' onset = keys w onset).
  { unfold keys. f_equal. apply map_ext_in. intros h Hin%list_elem_of_In.
    by apply Hname, Hdisj. }
  rewrite new_workbooks_live.
  - f_equal. f_equal.
    destruct (filter _ (map fst (Workbooks w'))) as [|h l] eqn:E; [done|].
    assert (Hh : h ∈ filter (λ h, FullName_at w' h ∉ keys w' onset)
                       (map fst (Workbooks w'))) by (rewrite E; left).
    apply list_elem_of_filter in Hh as [Hn Hin]. exfalso.
    apply assoc_Some_fst in Hin as [b Hb].
    assert (Hnc : h ∉ created) by (intros Hc; by rewrite Hgone in Hb).
    rewrite Hkeys, Hname in Hn by done.
    rewrite Hkeep in Hb by done.
    apply Hnc. rewrite Hcreated. apply list_elem_of_filter. split; [done|].
    apply assoc_Some_fst. by exists b.
  - by rewrite Ha.
  - rewrite Forall_forall in Hlive. apply Forall_forall. intros h Hin.
    destruct (Hlive h Hin) as [b Hb]. exists b.
    rewrite Hkeep; [done | by apply Hdisj].
Qed.

Lemma nothing_new_after_closing_the_new_witness :
  new_workbooks [1%nat] (close_workbooks [2%nat] desk_two_muted).2
  = (Ok [], (close_workbooks [2%nat] desk_two_muted).2).
Proof.
  apply (nothing_new_after_closing_the_new [1%nat] [2%nat] desk_two_muted).
  - vm_compute. reflexivity.
  - vm_compute. reflexivity.
Defined.

(** ** see_excel, once more *)

Lemma see_excel_cons (wb : handle) (rest : list handle) (st : Z) (w : World) :
  see_excel (wb :: rest) st w =
    match see_round wb st w with
    | (Ok _, w1) => see_excel rest st w1
    | (Raise e, w1) => (Raise e, w1)
    end.
Proof.
  cbn [see_excel]. unfold see_round. rewrite !run_bind.
  destruct (wb_Application_set_Visible wb true w) as [[[]|e] wa]; [|done].
  rewrite !run_bind.
  destruct (wb_Application_StartupPath wb wa) as [[sp|e] wb']; [|done].
  rewrite !run_bind.
  destruct (wb_FullName wb wb') as [[fn|e] wc]; [|done].
  rewrite run_bind.
  match goal with |- context [(if ?c then ?a else ?b) wc] =>
    by destruct ((if c then a else b) wc) as [[[]|?] ?] end.
Qed.

Lemma see_round_cases (wb : handle) (st : Z) (w : World) :
  (alive w = false ∧ see_round wb st w = (Raise com_server_gone, w))
  ∨ (alive w = true ∧ assoc wb (Workbooks w) = None
     ∧ see_round wb st w = (Raise com_object_gone, w))
  ∨ (∃ w1, live w wb ∧ see_round wb st w = (Ok tt, w1)
           ∧ same_books w w1 ∧ journal_grows (reveal_with st) w w1).
Proof.
  destruct (alive w) eqn:Hup.
  - destruct (assoc wb (Workbooks w)) as [b|] eqn:Hb.
    + right. right.
      destruct (see_round_run wb st w b Hup Hb)
        as (w1 & Hrun & Hh & _ & Hd & Hj & Hk & Ho & Hw).
      exists w1. split; [by exists b|]. split; [exact Hrun|]. split; [|done].
      split; [done|]. split; [done|]. split; [done|].
      intros h. unfold FullName_at.
      destruct (decide (h = wb)) as [->|Hne]; [|by rewrite Ho].
      rewrite Hw, Hb. by destruct (passed_over w wb).
    + right. left. split; [done|]. split; [done|].
      unfold see_round, wb_Application_set_Visible.
      by rewrite run_bind, run_bind, the_book_run, Hup, Hb.
  - left. split; [done|].
    unfold see_round, wb_Application_set_Visible.
    by rewrite run_bind, run_bind, the_book_run, Hup.
Qed.

Lemma same_books_refl (w : World) : same_books w w.
Proof. split; [apply same_host_refl | done]. Qed.

Lemma same_books_trans (w1 w2 w3 : World) :
  same_books w1 w2 → same_books w2 w3 → same_books w1 w3.
Proof.
  intros (Hh & Hd & Hk & Hn) (Hh' & Hd' & Hk' & Hn').
  split; [by eapply same_host_trans|]. split; [congruence|].
  split; [congruence|]. intros h. by rewrite Hn', Hn.
Qed.

(** X9.  Whatever its outcome, [see_excel] only shows: the journal grows
    by reveal events carrying the given window state, and the processes,
    the server, the alerts, the add-ins and the open workbooks with their
    names stay as they were (no workbook is closed, opened or renamed). *)
Theorem see_excel_only_shows (workbooks : list handle) (window_state : Z)
    (w w' : World) (r : result unit) :
  see_excel workbooks window_state w = (r, w') →
  same_books w w' ∧ journal_grows (reveal_with window_state) w w'.
Proof.
  revert w. induction workbooks as [|wb rest IH]; intros w.
  - intros [= <- <-]. split; [apply same_books_refl | apply journal_grows_refl].
  - rewrite see_excel_cons.
    destruct (see_round_cases wb window_state w)
      as [(_ & ->) | [(_ & _ & ->) | (w1 & _ & -> & Hs & Hj)]].
    + intros [= <- <-]. split; [apply same_books_refl | apply journal_grows_refl].
    + intros [= <- <-]. split; [apply same_books_refl | apply journal_grows_refl].
    + intros Hrest. apply IH in Hrest as [Hs' Hj'].
      split; [by eapply same_books_trans | by eapply journal_grows_trans].
Qed.

Lemma see_excel_only_shows_witness :
  map fst (Workbooks (see_excel [2%nat; 9%nat] (-4140) desk_two_muted).2)
  = [1%nat; 2%nat].
Proof.
  refine (proj1 (proj2 (proj2 (proj1 (see_excel_only_shows [2%nat; 9%nat] (-4140)
            desk_two_muted _ _ (surjective_pairing _)))))).
Defined.

(** X10.  A workbook that has been closed cannot be shown: on a live
    application, [see_excel] raises [com_error] as soon as one of the
    handles it is given is no longer open (the handles before it have been
    dealt with by then). *)
Theorem see_excel_raises_on_closed_workbook (workbooks : list handle)
    (window_state : Z) (w : World) :
  alive w = true →
  Exists (λ h, assoc h (Workbooks w) = None) workbooks →
  ∃ w', see_excel workbooks window_state w = (Raise com_object_gone, w').
Proof.
  revert w. induction workbooks as [|wb rest IH]; intros w Hup Hex;
    [by apply Exists_nil in Hex|].
  rewrite see_excel_cons.
  destruct (see_round_cases wb window_state w)
    as [(Hdead & _) | [(_ & _ & ->) | (w1 & Hlive & -> & Hs & _)]].
  - congruence.
  - eauto.
  - apply Exists_cons in Hex as [Hhd|Htl].
    + destruct Hlive as [b Hb]. congruence.
    + apply IH.
      * destruct Hs as ((_ & -> & _) & _). done.
      * eapply Exists_impl; [exact Htl|]. intros h Hn.
        destruct (assoc h (Workbooks w1)) as [b|] eqn:Hb; [|done].
        assert (is_Some (assoc h (Workbooks w))) as [b' Hb'].
        { apply assoc_Some_fst. destruct Hs as (_ & _ & <- & _).
          apply assoc_Some_fst. by exists b. }
        congruence.
Qed.

Lemma see_excel_raises_on_closed_workbook_witness :
  (see_excel [2%nat; 9%nat] (-4140) desk_two_muted).1 = Raise com_object_gone.
Proof.
  destruct (see_excel_raises_on_closed_workbook [2%nat; 9%nat] (-4140)
              desk_two_muted) as [w' Hrun].
  - reflexivity.
  - right. left. reflexivity.
  - by rewrite Hrun.
Defined.


Lemma shown_twice (st1 st2 : Z) (b : Workbook) :
  shown st2 (shown st1 b) = shown st2 b.
Proof.
  unfold shown, with_Windows. simpl. f_equal.
  rewrite <- list_fmap_compose. by apply list_fmap_ext.
Qed.

(** X11.  The last call to [see_excel] wins: showing the same open
    workbooks first in one window state and then in another leaves every
    workbook exactly as showing them in the second state alone does; in
    particular, showing twice in the same state is the same as showing
    once. *)
Theorem see_excel_last_state_wins (workbooks : list handle) (st1 st2 : Z)
    (w : World) :
  alive w = true →
  Forall (live w) workbooks →
  ∃ w1 w12 w2,
    see_excel workbooks st1 w = (Ok tt, w1)
    ∧ see_excel workbooks st2 w1 = (Ok tt, w12)
    ∧ see_excel workbooks st2 w = (Ok tt, w2)
    ∧ (∀ h, assoc h (Workbooks w12) = assoc h (Workbooks w2))
    ∧ map fst (Workbooks w12) = map fst (Workbooks w2)
    ∧ app_Visible w12 = app_Visible w2.
Proof.
  intros Hup Hlive.
  destruct (see_excel_run workbooks st1 w Hup Hlive)
    as (w1 & Hrun1 & Hh1 & Hv1 & _ & _ & Hk1 & Hw1).
  pose proof (see_excel_only_shows _ _ _ _ _ Hrun1) as [(_ & _ & _ & Hn1) _].
  assert (Hup1 : alive w1 = true) by (destruct Hh1 as (_ & -> & _); done).
  assert (Hlive1 : Forall (live w1) workbooks).
  { eapply Forall_impl; [exact Hlive|]. intros h. by apply live_keys. }
  destruct (see_excel_run workbooks st2 w1 Hup1 Hlive1)
    as (w12 & Hrun12 & _ & Hv12 & _ & _ & Hk12 & Hw12).
  destruct (see_excel_run workbooks st2 w Hup Hlive)
    as (w2 & Hrun2 & _ & Hv2 & _ & _ & Hk2 & Hw2).
  exists w1, w12, w2. split; [done|]. split; [done|]. split; [done|].
  assert (Hpo : ∀ h, passed_over w1 h = passed_over w h).
  { intros h. unfold passed_over. rewrite Hn1.
    by destruct Hh1 as (_ & _ & -> & _). }
  assert (Hassoc : ∀ h, assoc h (Workbooks w12) = assoc h (Workbooks w2)).
  { intros h. rewrite Hw12, Hw2, Hw1, Hpo.
    case_decide; [|done].
    destruct (assoc h (Workbooks w)) as [b|]; [|done]. simpl.
    by rewrite shown_twice. }
  split; [done|]. split; [congruence|].
  rewrite Hv12, Hv2, Hv1. by destruct workbooks.
Qed.

Lemma see_excel_last_state_wins_witness :
  ∃ w12, see_excel [2%nat] (-4140) (see_excel [2%nat] (-4137) desk_two_muted).2
         = (Ok tt, w12)
         ∧ assoc 2%nat (Workbooks w12) = Some (shown (-4140) Book2).
Proof.
  destruct (see_excel_last_state_wins [2%nat] (-4137) (-4140) desk_two_muted)
    as (w1 & w12 & w2 & H1 & H12 & H2 & Hassoc & _).
  - reflexivity.
  - constructor; [eexists; reflexivity | constructor].
  - exists w12. rewrite H1. split; [done|].
    rewrite Hassoc. vm_compute in H2. injection H2 as <-. reflexivity.
Defined.


(** ** application, once more *)

Lemma new_workbooks_dead (onset : list handle) (w : World) :
  alive w = false → new_workbooks onset w = (Raise com_server_gone, w).
Proof.
  intros Hdead. unfold new_workbooks. rewrite run_bind.
  destruct onset as [|h rest].
  - simpl. rewrite run_bind. unfold workbooks_currently_open.
    by rewrite app_Workbooks_run, Hdead.
  - cbn [FullNames]. by rewrite run_bind, wb_FullName_run, Hdead.
Qed.

Lemma new_workbooks_stale (onset : list handle) (w : World) :
  alive w = true →
  Exists (λ h, assoc h (Workbooks w) = None) onset →
  new_workbooks onset w = (Raise com_object_gone, w).
Proof.
  intros Hup Hex. unfold new_workbooks.
  by rewrite run_bind, FullNames_stale.
Qed.

Lemma new_workbooks_raises (onset : list handle) (w w' : World) (e : exn) :
  new_workbooks onset w = (Raise e, w') →
  e = com_server_gone ∨ e = com_object_gone.
Proof.
  destruct (alive w) eqn:Hup.
  - destruct (decide (Forall (live w) onset)) as [Hlive|Hn].
    + by rewrite new_workbooks_live.
    + rewrite new_workbooks_stale; [intros [= <- _]; by right | done |].
      apply not_Forall_Exists in Hn; [|apply _].
      eapply Exists_impl; [exact Hn|]. intros h Hh. simpl in Hh.
      destruct (assoc h (Workbooks w)) as [b|] eqn:Hb; [|done].
      destruct Hh. by exists b.
  - rewrite new_workbooks_dead by done. intros [= <- _]. by left.
Qed.

Lemma application_finally_new_fails (kill_after maximize include_addins : bool)
    (onset : list handle) (err_msg : option pyarg) (w : World) (e : exn) :
  new_workbooks onset w = (Raise e, w) →
  application_finally kill_after maximize include_addins onset err_msg w
  = (Raise e, w).
Proof. intros Hnew. unfold application_finally. by rewrite run_bind, Hnew. Qed.

(** X12.  The snapshot taken on entry holds live references.  When the
    body closes one of the workbooks that were open on entry, the
    [finally] suite fails on its first line: [application] raises
    [com_error] whatever the body did and whatever the flags are, and
    nothing is cleaned up, shown or uninitialized. *)
Theorem closing_an_onset_workbook_breaks_the_session
    (kill_after maximize include_addins : bool) (body : M unit)
    (w0 w1 w2 : World) (onset : list handle) (outcome : result unit) :
  application_enter w0 = (Ok onset, w1) →
  body w1 = (outcome, w2) →
  alive w2 = true →
  Exists (λ h, assoc h (Workbooks w2) = None) onset →
  application kill_after maximize include_addins body w0
  = (Raise com_object_gone, w2).
Proof.
  intros Henter Hbody Hup Hex.
  rewrite (application_run _ _ _ _ _ _ _ _ _ Henter Hbody).
  by apply application_finally_new_fails, new_workbooks_stale.
Qed.

Lemma closing_an_onset_workbook_breaks_the_session_witness :
  application true true false body_closes_onset_workbook desk_busy
  = (Raise com_object_gone,
     (body_closes_onset_workbook (application_enter desk_busy).2).2).
Proof.
  eapply (closing_an_onset_workbook_breaks_the_session true true false
            body_closes_onset_workbook desk_busy
            (application_enter desk_busy).2 _ [1%nat] (Ok tt)).
  - vm_compute. reflexivity.
  - vm_compute. reflexivity.
  - reflexivity.
  - left. reflexivity.
Defined.

(** X13.  When the host is gone by the time the body ends (it crashed,
    or the body made it quit), [application] raises [com_error] from the
    first line of the [finally] suite: even with [kill_after] set no
    process is killed, and nothing else is done. *)
Theorem host_gone_breaks_the_session
    (kill_after maximize include_addins : bool) (body : M unit)
    (w0 w1 w2 : World) (onset : list handle) (outcome : result unit) :
  application_enter w0 = (Ok onset, w1) →
  body w1 = (outcome, w2) →
  alive w2 = false →
  application kill_after maximize include_addins body w0
  = (Raise com_server_gone, w2).
Proof.
  intros Henter Hbody Hdead.
  rewrite (application_run _ _ _ _ _ _ _ _ _ Henter Hbody).
  by apply application_finally_new_fails, new_workbooks_dead.
Qed.

Lemma host_gone_breaks_the_session_witness :
  application true true false body_loses_host desk_busy
  = (Raise com_server_gone,
     with_Workbooks [] (with_alive false (record CoInitialized desk_busy))).
Proof.
  eapply (host_gone_breaks_the_session true true false
            body_loses_host desk_busy
            (application_enter desk_busy).2 _ [1%nat] (Ok tt)).
  - vm_compute. reflexivity.
  - reflexivity.
  - reflexivity.
Defined.











(** ** worksheet_name_sanitization, once more *)



(** ** excel_open_files *)

Lemma excel_open_files_round_run (open_files : Proc → result (list string))
    (proc : Proc) (acc : list string) (w : World) :
  files_readable_or_denied open_files proc →
  try_except
    (Process_name proc ≫= λ n : string,
     if String.eqb n EXCEL_PROCESS_NAME
     then match open_files proc with
          | Ok paths => mret (acc ++ paths)
          | Raise e => raise e
          end
     else mret acc)
    is_AccessDenied (mret acc) w
  = (Ok (acc ++ paths_taken open_files proc), w).
Proof.
  intros [Hv Hf]. unfold try_except, Process_name, paths_taken.
  unfold vanished, answers_excel in *. rewrite run_bind.
  destruct (proc_name proc) as [n| |]; [|by rewrite app_nil_r|done]. simpl.
  destruct (String.eqb n EXCEL_PROCESS_NAME); [|by rewrite run_ret, app_nil_r].
  specialize (Hf eq_refl).
  destruct (open_files proc) as [paths|e]; [done|].
  destruct e; try done. by rewrite app_nil_r.
Qed.

Lemma excel_open_files_loop_run (open_files : Proc → result (list string))
    (ps : list Proc) (acc : list string) (w : World) :
  Forall (files_readable_or_denied open_files) ps →
  excel_open_files_loop open_files ps acc w
  = (Ok (acc ++ flat_map (paths_taken open_files) ps), w).
Proof.
  intros Hall. revert acc. induction Hall as [|p rest Hp _ IH]; intros acc.
  - simpl. by rewrite app_nil_r.
  - cbn [excel_open_files_loop flat_map].
    rewrite run_bind, excel_open_files_round_run by done.
    by rewrite IH, app_assoc.
Qed.

(** X18.  [excel_open_files] changes nothing and is not stopped by a
    refusal: when no listed process has vanished and the files of every
    process answering EXCEL.EXE can be read or are refused, it returns, in
    the order of the process list, the paths of the open files of the
    processes answering EXCEL.EXE; a process that refuses its name or its
    files adds nothing. *)
Theorem excel_open_files_collects_readable_paths
    (open_files : Proc → result (list string)) (w : World) :
  Forall (files_readable_or_denied open_files) (procs w) →
  excel_open_files open_files w
  = (Ok (flat_map (paths_taken open_files) (procs w)), w).
Proof.
  intros Hall. unfold excel_open_files, process_iter. rewrite run_bind.
  unfold gets. by rewrite excel_open_files_loop_run.
Qed.

Lemma excel_open_files_collects_readable_paths_witness :
  excel_open_files desk_open_files desk_guarded = (Ok [], desk_guarded)
  ∧ excel_open_files desk_open_files desk_busy
    = (Ok ["C:\Temp\a1b2.tmp"; "C:\Docs\plan.xlsx"], desk_busy).
Proof.
  split.
  - apply (excel_open_files_collects_readable_paths desk_open_files desk_guarded).
    repeat constructor; done.
  - apply (excel_open_files_collects_readable_paths desk_open_files desk_busy).
    repeat constructor; done.
Defined.

(** ** close_workbooks: when it returns *)

(** X19.  On a live application, [close_workbooks] returns normally
    exactly when every handle it is given is an open workbook that accepts
    [Close] and no handle occurs twice (a second [Close] through the same
    handle finds the workbook gone and raises). *)
Theorem close_workbooks_returns_iff (workbooks : list handle) (w : World) :
  alive w = true →
  (∃ w', close_workbooks workbooks w = (Ok tt, w'))
  ↔ NoDup workbooks ∧ Forall (closable w) workbooks.
Proof.
  revert w. induction workbooks as [|wb rest IH]; intros w Hup.
  - split; [intros _; split; constructor | intros _; by exists w].
  - rewrite close_workbooks_cons.
    destruct (close_round_cases wb w)
      as [(b & _ & Hb & Hf & ->) | [(hr & -> & Hdead) | (hr & _ & Hr)]].
    + set (w1 := mkWorld _ _ _ _ _ _ _ _).
      assert (Hw1 : ∀ h, closable w1 h ↔ h ≠ wb ∧ closable w h).
      { intros h. unfold closable. subst w1. simpl. rewrite assoc_drop_book.
        case_decide as E; [subst h|].
        - split; [by intros (? & ? & _) | by intros [? _]].
        - split; [by intros ? | by intros [_ ?]]. }
      rewrite (IH w1 Hup). rewrite NoDup_cons, Forall_cons.
      rewrite !Forall_forall. split.
      * intros [Hnd Hall]. split; [split; [|done]|split].
        -- intros Hin. by destruct (proj1 (Hw1 wb) (Hall wb Hin)).
        -- by exists b.
        -- intros h Hin. by apply Hw1, Hall.
      * intros [[Hnin Hnd] [_ Hall]]. split; [done|].
        intros h Hin. apply Hw1. split; [by intros ->|by apply Hall].
    + congruence.
    + rewrite Hr. split; [by intros [? ?]|].
      intros [_ [(b & Hb & Hf) _]%Forall_cons]. exfalso.
      unfold close_round in Hr.
      rewrite run_bind, app_set_DisplayAlerts_run, Hup in Hr.
      rewrite run_bind, wb_Close_run in Hr. simpl in Hr.
      rewrite Hup, Hb, Hf in Hr. rewrite app_set_DisplayAlerts_run in Hr.
      simpl in Hr. done.
Qed.

Lemma close_workbooks_returns_iff_witness :
  ¬ ∃ w', close_workbooks [2%nat; 2%nat] desk_two_muted = (Ok tt, w').
Proof.
  intros H.
  apply (close_workbooks_returns_iff [2%nat; 2%nat] desk_two_muted eq_refl) in H
    as [Hnd _].
  apply NoDup_cons in Hnd as [Hn _]. apply Hn. left.
Defined.

(** ** Exceptions whose object is falsy *)

(** X20.  An [Exception] whose object is falsy is swallowed.  When the
    body raises one, the session ends exactly as if the body had returned
    normally at that point: with [kill_after] off the created workbooks
    are shown, with [kill_after] on they are cleaned up, and in neither
    case is [ExcelError] or any other sign of the failure raised by lines
    270-271. *)
Theorem falsy_exception_is_swallowed
    (kill_after maximize include_addins : bool) (body body' : M unit)
    (w0 w1 w2 : World) (onset : list handle) (e : exn) :
  application_enter w0 = (Ok onset, w1) →
  body w1 = (Raise e, w2) →
  is_Exception e = true →
  exn_truthy e = false →
  body' w1 = (Ok tt, w2) →
  application kill_after maximize include_addins body w0
  = application kill_after maximize include_addins body' w0.
Proof.
  intros Henter Hbody He Ht Hbody'.
  rewrite (application_run _ _ _ _ _ _ _ _ _ Henter Hbody).
  rewrite (application_run _ _ _ _ _ _ _ _ _ Henter Hbody').
  simpl err_msg_of. rewrite He.
  unfold application_finally. rewrite !run_bind.
  destruct (new_workbooks onset w2) as [[created|e'] w']; [|done].
  assert (Htail : ∀ w v, truthy v = false →
            (CoUninitialize ≫= λ _ : (), (mret v : M pyarg) ≫= λ v : pyarg,
               if truthy v then raise (ExcelError v) else mret ()) w
            = (Ok tt, record CoUninitialized w)).
  { intros w v Hv. rewrite run_bind. unfold CoUninitialize, modify.
    rewrite run_bind, run_ret. by rewrite Hv. }
  simpl read_local. destruct kill_after; rewrite ?run_bind, ?run_ret;
    simpl truthy; rewrite ?Ht; cbv iota.
  all: match goal with |- (?m ≫= _) ?w = _ =>
         rewrite !(run_bind m); destruct (m w) as [[[]|e'] w3]; [|done] end.
  all: by rewrite !Htail.
Qed.

Lemma falsy_exception_is_swallowed_witness :
  application true true false body_adds_then_fails_falsy desk_busy
  = application true true false body_adds desk_busy.
Proof.
  apply (falsy_exception_is_swallowed true true false
           body_adds_then_fails_falsy body_adds desk_busy
           (application_enter desk_busy).2
           (body_adds (application_enter desk_busy).2).2
           [1%nat] (FalsyException "EmptyErrors")).
  - vm_compute. reflexivity.
  - vm_compute. reflexivity.
  - reflexivity.
  - reflexivity.
  - vm_compute. reflexivity.
Defined.
